(** * Upload coordinator, result renderer and candidate chart

    A shallow embedding of the client-side scripts of the application:
    the main script (DOM-ready handlers, [setupFormHandlers],
    [populateJdResults], [createAnalysisSection], [showAlert]) and
    [static/js/charts.js] ([createCandidateScoresChart]).

    JavaScript values that come out of [response.json()] are an inductive
    type; the document is a record of the few elements the scripts look
    up; promise chains are run in an error-and-state monad, one handler
    after the other, the way the event loop runs them. *)

From Stdlib Require Import List String Ascii Bool ZArith QArith Lia Lqa.
From Stdlib Require Import Sorting.Sorted Sorting.Permutation.
Import ListNotations.
Local Open Scope list_scope.
Local Open Scope string_scope.
Set Warnings "-register-all".

(** ** JavaScript values *)

Module JS.

(** A number is kept as its mathematical value together with the text
    [Number::toString] yields for it; the text is data of the value, the
    embedding does not print floating-point numbers. The numbers of a
    value are finite. *)
Inductive value : Type :=
| VUndefined
| VNull
| VBool (b : bool)
| VNum (q : Q) (text : string)
| VStr (s : string)
| VArr (items : list value)
| VObj (props : list (string * value)).

Inductive js_error : Type :=
| TypeError (msg : string)
| SyntaxError (msg : string)
| Error (msg : string)
| DOMException (name msg : string).

(** Completion of an evaluation: a value or a thrown exception. The same
    type is the state of a settled promise. *)
Inductive outcome (A : Type) : Type :=
| Ok (a : A)
| Throw (e : js_error).
Arguments Ok {A} a.
Arguments Throw {A} e.

Definition is_ok {A} (r : outcome A) : bool :=
  match r with Ok _ => true | Throw _ => false end.

(** [ToBoolean]. *)
Definition truthy (v : value) : bool :=
  match v with
  | VUndefined | VNull => false
  | VBool b => b
  | VNum q _ => negb (Qeq_bool q 0)
  | VStr s => negb (String.eqb s "")
  | VArr _ | VObj _ => true
  end.

(** [a || b] *)
Definition or_else (a b : value) : value :=
  if truthy a then a else b.

(** Own-property lookup in an object given by its entries in insertion
    order; an object that came out of [JSON.parse] holds each key once. *)
Fixpoint own_prop (props : list (string * value)) (key : string) : option value :=
  match props with
  | [] => None
  | (k, v) :: rest => if String.eqb k key then Some v else own_prop rest key
  end.

(** [v.key] for the data properties the scripts read ([analysis],
    [redirect], [skills], [experience], [qualifications],
    [responsibilities]): none of them is inherited from a prototype, so
    the read is an own-property lookup; on [null] and [undefined] it
    throws. *)
Definition get_prop (v : value) (key : string) : outcome value :=
  match v with
  | VUndefined | VNull =>
      Throw (TypeError ("Cannot read properties of null or undefined: " ++ key))
  | VObj props =>
      match own_prop props key with Some x => Ok x | None => Ok VUndefined end
  | _ => Ok VUndefined
  end.

(** [v.length === 0] *)
Definition length_is_zero (v : value) : outcome bool :=
  match v with
  | VUndefined | VNull =>
      Throw (TypeError "Cannot read properties of null or undefined: length")
  | VArr items => Ok (match items with [] => true | _ => false end)
  | VStr s => Ok (String.eqb s "")
  | VObj props =>
      Ok (match own_prop props "length" with
          | Some (VNum q _) => Qeq_bool q 0
          | _ => false
          end)
  | _ => Ok false
  end.

Definition bind {A B} (r : outcome A) (f : A -> outcome B) : outcome B :=
  match r with Ok a => f a | Throw e => Throw e end.

(** [ToString]. An array joins its elements with a comma, [null] and
    [undefined] elements giving the empty text. A plain object gives
    "[object Object]" through [Object.prototype.toString], unless it has
    an own [toString] property: a parsed JSON value is never callable, and
    [valueOf] then yields no primitive, so the conversion throws. *)
Fixpoint ToString (v : value) : outcome string :=
  match v with
  | VUndefined => Ok "undefined"
  | VNull => Ok "null"
  | VBool true => Ok "true"
  | VBool false => Ok "false"
  | VNum _ text => Ok text
  | VStr s => Ok s
  | VArr items =>
      (fix join (l : list value) : outcome string :=
         match l with
         | [] => Ok ""
         | x :: rest =>
             bind (match x with
                   | VUndefined | VNull => Ok ""
                   | _ => ToString x
                   end)
               (fun s =>
                  match rest with
                  | [] => Ok s
                  | _ => bind (join rest) (fun t => Ok (s ++ "," ++ t))
                  end)
         end) items
  | VObj props =>
      match own_prop props "toString" with
      | Some _ => Throw (TypeError "Cannot convert object to primitive value")
      | None => Ok "[object Object]"
      end
  end.

End JS.
Import JS.

Notation "x <- e ;; k" := (JS.bind e (fun x => k))
  (at level 61, e at next level, right associativity, only parsing).

(** ** The document *)

Module DOM.

(** A node of the tree. Content assigned through [innerHTML] is kept as
    the markup source it was given, apart from text, which is never
    parsed. *)
Inductive node : Type :=
| Element (tag className : string) (attrs : list (string * string))
          (children : list node)
| TextNode (data : string)
| Markup (html : string).

(** [document.createElement(tag)] *)
Definition createElement (tag : string) : node := Element tag "" [] [].

(** [n.className = c] *)
Definition set_className (n : node) (c : string) : node :=
  match n with
  | Element tag _ attrs children => Element tag c attrs children
  | _ => n
  end.

(** [n.setAttribute(k, v)]; [alert.role = 'alert'] reflects the attribute. *)
Definition set_attr (n : node) (k v : string) : node :=
  match n with
  | Element tag c attrs children => Element tag c (attrs ++ [(k, v)])%list children
  | _ => n
  end.

(** [parent.appendChild(child)] for a child that is not yet in the tree. *)
Definition appendChild (parent child : node) : node :=
  match parent with
  | Element tag c attrs children => Element tag c attrs (children ++ [child])%list
  | _ => parent
  end.

(** [n.textContent = s] with [s] a string: the children are replaced by
    one text node, or by nothing when [s] is empty. *)
Definition set_textContent (n : node) (s : string) : node :=
  match n with
  | Element tag c attrs _ =>
      Element tag c attrs (if String.eqb s "" then [] else [TextNode s])
  | _ => n
  end.

(** [n.textContent = v] with any value: the attribute is a nullable
    string, [null] and [undefined] stand for the empty text and every
    other value goes through [ToString]. *)
Definition assign_textContent (n : node) (v : value) : outcome node :=
  s <- match v with
       | VUndefined | VNull => Ok ""
       | _ => ToString v
       end ;;
  Ok (set_textContent n s).

(** [n.innerHTML = html] *)
Definition set_innerHTML (n : node) (html : string) : node :=
  match n with
  | Element tag c attrs _ =>
      Element tag c attrs (if String.eqb html "" then [] else [Markup html])
  | _ => n
  end.

(** The [textContent] getter: the texts of the descendants, in tree
    order. It is not computed where content came from markup source. *)
Fixpoint textContent (n : node) : option string :=
  match n with
  | Element _ _ _ children =>
      (fix cat (l : list node) : option string :=
         match l with
         | [] => Some ""
         | c :: rest =>
             match textContent c, cat rest with
             | Some a, Some b => Some (a ++ b)
             | _, _ => None
             end
         end) children
  | TextNode data => Some data
  | Markup _ => None
  end.

(** No descendant was produced from markup source. *)
Fixpoint markup_free (n : node) : bool :=
  match n with
  | Element _ _ _ children =>
      (fix all (l : list node) : bool :=
         match l with
         | [] => true
         | c :: rest => markup_free c && all rest
         end) children
  | TextNode _ => true
  | Markup _ => false
  end.

Definition child_nodes (n : node) : list node :=
  match n with Element _ _ _ children => children | _ => [] end.

Definition tag_of (n : node) : string :=
  match n with Element tag _ _ _ => tag | _ => "" end.

(** An element that lives in the document and is looked up by the
    scripts: its class list and its children. *)
Record element : Type := mkElement {
  classList : list string;
  children : list node
}.

Definition has_class (c : string) (l : list string) : bool :=
  existsb (String.eqb c) l.

(** [classList.add(c)] *)
Definition classList_add (c : string) (l : list string) : list string :=
  if has_class c l then l else (l ++ [c])%list.

(** [classList.remove(c)] *)
Definition classList_remove (c : string) (l : list string) : list string :=
  filter (fun x => negb (String.eqb c x)) l.

End DOM.
Import DOM.

(** ** The result renderer *)

(** [items.forEach(f)] threading the node the callback mutates. Only an
    array has a [forEach] method. *)
Fixpoint forEach_items (l : list value) (f : node -> value -> outcome node)
    (acc : node) : outcome node :=
  match l with
  | [] => Ok acc
  | item :: rest => acc' <- f acc item ;; forEach_items rest f acc'
  end.

Definition forEach (items : value) (f : node -> value -> outcome node)
    (acc : node) : outcome node :=
  match items with
  | VArr l => forEach_items l f acc
  | _ => Throw (TypeError "items.forEach is not a function")
  end.

(** The callback of the loop in [createAnalysisSection]:
    [item => { ... list.appendChild(listItem) }]. *)
Definition append_list_item (list : node) (item : value) : outcome node :=
  let listItem := createElement "li" in
  let listItem := set_className listItem "list-group-item" in
  listItem <- assign_textContent listItem item ;;
  Ok (appendChild list listItem).

Definition createAnalysisSection (title : string) (items : value) : outcome node :=
  let section := createElement "div" in
  let section := set_className section "mb-4" in
  let heading := createElement "h5" in
  let heading := set_textContent heading title in
  let section := appendChild section heading in
  empty <- length_is_zero items ;;
  if empty : bool then
    let emptyMsg := createElement "p" in
    let emptyMsg := set_className emptyMsg "text-muted fst-italic" in
    let emptyMsg := set_textContent emptyMsg "No items detected" in
    Ok (appendChild section emptyMsg)
  else
    let list := createElement "ul" in
    let list := set_className list "list-group" in
    list <- forEach items append_list_item list ;;
    Ok (appendChild section list).

(** [Object.values(o)]: the values in insertion order of the keys. *)
Definition Object_values {A} (o : list (string * A)) : list A := map snd o.

(** The four properties of the [sections] object literal, evaluated in
    source order; the first one that throws ends the evaluation. *)
Definition build_sections (analysis : value) : outcome (list (string * node)) :=
  v <- get_prop analysis "skills" ;;
  skills <- createAnalysisSection "Required Skills" (or_else v (VArr [])) ;;
  v <- get_prop analysis "experience" ;;
  experience <- createAnalysisSection "Experience Requirements" (or_else v (VArr [])) ;;
  v <- get_prop analysis "qualifications" ;;
  qualifications <- createAnalysisSection "Qualifications" (or_else v (VArr [])) ;;
  v <- get_prop analysis "responsibilities" ;;
  responsibilities <- createAnalysisSection "Responsibilities" (or_else v (VArr [])) ;;
  Ok [("skills", skills); ("experience", experience);
      ("qualifications", qualifications); ("responsibilities", responsibilities)].

(** [populateJdResults(analysis, container)]: the container is mutated in
    place, so the function returns it next to the completion; an exception
    leaves it as it was at the throw. *)
Definition populateJdResults (analysis : value) (container : option element)
  : outcome unit * option element :=
  match container with
  | None => (Ok tt, None)
  | Some c =>
      let c := mkElement (classList c) [] in
      match build_sections analysis with
      | Throw e => (Throw e, Some c)
      | Ok sections =>
          let c := fold_left
                     (fun c section => mkElement (classList c) (children c ++ [section])%list)
                     (Object_values sections) c in
          let c := mkElement (classList_add "fade-in" (classList c)) (children c) in
          let c := mkElement (classList_remove "d-none" (classList c)) (children c) in
          (Ok tt, Some c)
      end
  end.

(** ** The page and the effects of a submission *)

Inductive form_id : Type := JD | CV.

(** The promise reactions of an upload chain, in source order: the first
    [then] (status check), the second [then] (success), [catch], [finally]. *)
Inductive reaction : Type := OnResponse | OnData | OnError | OnSettled.

Inductive event : Type :=
| EPreventDefault
| EFetch (method url : string) (body : list (string * string))
| EReaction (r : reaction)
| EConsoleError (label : string) (e : js_error)
| ENavigate (href : string)
| ESetTimeout (ms : Z) (alert : node).

Record button : Type := mkButton { disabled : bool }.

(** A form with the two optional elements its listener queries. *)
Record form : Type := mkForm {
  fields : list (string * string);
  submitBtn : option button;
  loadingSpinner : option element
}.

Record world : Type := mkWorld {
  jdForm : option form;          (* #jd-upload-form *)
  cvForm : option form;          (* #cv-upload-form *)
  alerts_container : option element;   (* #alerts-container *)
  jd_results : option element;         (* #jd-results *)
  trace : list event
}.

Definition get_form (k : form_id) (w : world) : option form :=
  match k with JD => jdForm w | CV => cvForm w end.

Definition set_form (k : form_id) (f : form) (w : world) : world :=
  match k with
  | JD => mkWorld (Some f) (cvForm w) (alerts_container w) (jd_results w) (trace w)
  | CV => mkWorld (jdForm w) (Some f) (alerts_container w) (jd_results w) (trace w)
  end.

Definition set_alerts_container (c : element) (w : world) : world :=
  mkWorld (jdForm w) (cvForm w) (Some c) (jd_results w) (trace w).

Definition set_jd_results (c : option element) (w : world) : world :=
  mkWorld (jdForm w) (cvForm w) (alerts_container w) c (trace w).

Definition emit (e : event) (w : world) : world :=
  mkWorld (jdForm w) (cvForm w) (alerts_container w) (jd_results w)
          (trace w ++ [e])%list.

(** Computations that mutate the page and may throw. *)
Definition M (A : Type) : Type := world -> outcome A * world.

Definition ret {A} (a : A) : M A := fun w => (Ok a, w).
Definition throw {A} (e : js_error) : M A := fun w => (Throw e, w).
Definition mbind {A B} (m : M A) (f : A -> M B) : M B :=
  fun w => match m w with
           | (Ok a, w1) => f a w1
           | (Throw e, w1) => (Throw e, w1)
           end.
Definition lift {A} (r : outcome A) : M A := fun w => (r, w).
Definition modify (f : world -> world) : M unit := fun w => (Ok tt, f w).
Definition get {A} (f : world -> A) : M A := fun w => (Ok (f w), w).

Notation "x <~ e ;; k" := (mbind e (fun x => k))
  (at level 61, e at next level, right associativity, only parsing).
Notation "e ;;; k" := (mbind e (fun _ => k))
  (at level 61, right associativity, only parsing).

(** *** Promise reactions

    A computation of type [M A] that has run is a settled promise: [Ok] is
    fulfilled, [Throw] is rejected. Each combinator records the reaction
    it runs. *)

(** [p.then(f)] *)
Definition then_ {A B} (r : reaction) (p : M A) (f : A -> M B) : M B :=
  fun w => match p w with
           | (Ok a, w1) => f a (emit (EReaction r) w1)
           | (Throw e, w1) => (Throw e, w1)
           end.

(** [p.catch(h)] *)
Definition catch_ {A} (r : reaction) (p : M A) (h : js_error -> M A) : M A :=
  fun w => match p w with
           | (Ok a, w1) => (Ok a, w1)
           | (Throw e, w1) => h e (emit (EReaction r) w1)
           end.

(** [p.finally(h)]: the handler runs on either settlement and the
    settlement passes through, unless the handler itself throws. *)
Definition finally_ {A} (r : reaction) (p : M A) (h : M unit) : M A :=
  fun w => match p w with
           | (s, w1) =>
               match h (emit (EReaction r) w1) with
               | (Ok _, w2) => (s, w2)
               | (Throw e, w2) => (Throw e, w2)
               end
           end.

(** *** The network *)

(** What the network does with the one request of a submission: it fails
    before a response arrives, or it delivers a response with a status
    and a body, which is JSON text ([Some]) or not ([None]). *)
Inductive fetch_result : Type :=
| NetworkFailure
| Response (status : Z) (body : option value).

(** [response.ok] *)
Definition response_ok (status : Z) : bool :=
  (200 <=? status)%Z && (status <=? 299)%Z.

Record response : Type := mkResponse { ok : bool; json_body : option value }.

(** [fetch(url, { method: 'POST', body: formData })] *)
Definition fetch (url : string) (body : list (string * string))
    (net : fetch_result) : M response :=
  modify (emit (EFetch "POST" url body)) ;;;
  match net with
  | NetworkFailure => throw (TypeError "Failed to fetch")
  | Response status b => ret (mkResponse (response_ok status) b)
  end.

(** [response.json()] *)
Definition json (r : response) : M value :=
  match json_body r with
  | Some v => ret v
  | None => throw (SyntaxError "Unexpected token in JSON")
  end.

(** *** Notifications *)

Definition dq : string := String (ascii_of_nat 34) "".
Definition nl : string := String (ascii_of_nat 10) "".

Definition alert_markup (message : string) : string :=
  nl ++ "        " ++ message ++ nl ++
  "        <button type=" ++ dq ++ "button" ++ dq ++
  " class=" ++ dq ++ "btn-close" ++ dq ++
  " data-bs-dismiss=" ++ dq ++ "alert" ++ dq ++
  " aria-label=" ++ dq ++ "Close" ++ dq ++ "></button>" ++ nl ++ "    ".

Definition alert_node (type message : string) : node :=
  let alert := createElement "div" in
  let alert := set_className alert ("alert alert-" ++ type ++ " alert-dismissible fade show") in
  let alert := set_attr alert "role" "alert" in
  set_innerHTML alert (alert_markup message).

Definition showAlert (type message : string) : M unit :=
  alertsContainer <~ get alerts_container ;;
  match alertsContainer with
  | None => ret tt
  | Some c =>
      let alert := alert_node type message in
      modify (set_alerts_container
                (mkElement (classList c) (children c ++ [alert])%list)) ;;;
      modify (emit (ESetTimeout 5000 alert))
  end.

(** ** The upload coordinator *)

(** What the browser and the network contribute to one submission: the
    fate of the request, and which strings the URL parser accepts as a
    navigation target relative to the page. *)
Record environment : Type := mkEnv {
  net : fetch_result;
  url_parses : string -> bool
}.

(** [window.location.href = v] *)
Definition set_location_href (env : environment) (v : value) : M unit :=
  href <~ lift (ToString v) ;;
  if url_parses env href then modify (emit (ENavigate href))
  else throw (DOMException "SyntaxError" "Failed to set the 'href' property on 'Location'").

Definition update_form (k : form_id) (g : form -> form) : M unit :=
  modify (fun w => match get_form k w with
                   | Some f => set_form k (g f) w
                   | None => w
                   end).

(** [if (submitBtn) submitBtn.disabled = b] *)
Definition set_disabled (b : bool) (f : form) : form :=
  mkForm (fields f)
         (match submitBtn f with Some _ => Some (mkButton b) | None => None end)
         (loadingSpinner f).

(** [if (loadingSpinner) loadingSpinner.classList.<op>('d-none')] *)
Definition spinner_classList (op : list string -> list string) (f : form) : form :=
  mkForm (fields f) (submitBtn f)
         (match loadingSpinner f with
          | Some sp => Some (mkElement (op (classList sp)) (children sp))
          | None => None
          end).

Definition endpoint (k : form_id) : string :=
  match k with JD => "/api/job-description" | CV => "/api/resume" end.

Definition success_message (k : form_id) : string :=
  match k with
  | JD => "Job description uploaded and analyzed successfully!"
  | CV => "Resume uploaded and analyzed successfully!"
  end.

Definition failure_message (k : form_id) : string :=
  match k with
  | JD => "Failed to upload job description. Please try again."
  | CV => "Failed to upload resume. Please try again."
  end.

(** The second [then] of the job-description listener. *)
Definition jd_on_data (data : value) : M unit :=
  showAlert "success" (success_message JD) ;;;
  resultsContainer <~ get jd_results ;;
  match resultsContainer with
  | None => ret tt
  | Some _ =>
      analysis <~ lift (get_prop data "analysis") ;;
      if truthy analysis then
        analysis <~ lift (get_prop data "analysis") ;;
        fun w =>
          let (r, c) := populateJdResults analysis resultsContainer in
          (r, set_jd_results c w)
      else ret tt
  end.

(** The second [then] of the resume listener. *)
Definition cv_on_data (env : environment) (data : value) : M unit :=
  showAlert "success" (success_message CV) ;;;
  redirect <~ lift (get_prop data "redirect") ;;
  if truthy redirect then
    redirect <~ lift (get_prop data "redirect") ;;
    set_location_href env redirect
  else ret tt.

Definition on_data (k : form_id) (env : environment) (data : value) : M unit :=
  match k with JD => jd_on_data data | CV => cv_on_data env data end.

(** The [catch] of either listener. *)
Definition on_error (k : form_id) (error : js_error) : M unit :=
  modify (emit (EConsoleError "Error:" error)) ;;;
  showAlert "danger" (failure_message k).

(** The [finally] of either listener. *)
Definition on_settled (k : form_id) : M unit :=
  update_form k (set_disabled false) ;;;
  update_form k (spinner_classList (classList_add "d-none")).

(** The submit listener of a form. The two listeners of
    [setupFormHandlers] are the same text up to the form, the endpoint,
    the two messages and the second [then]. *)
Definition submit_listener (k : form_id) (env : environment) : M unit :=
  modify (emit EPreventDefault) ;;;
  formData <~ get (fun w => match get_form k w with
                            | Some f => fields f
                            | None => []
                            end) ;;
  update_form k (set_disabled true) ;;;
  update_form k (spinner_classList (classList_remove "d-none")) ;;;
  finally_ OnSettled
    (catch_ OnError
       (then_ OnData
          (then_ OnResponse
             (fetch (endpoint k) formData (net env))
             (fun response =>
                if negb (ok response)
                then throw (Error "Network response was not ok")
                else json response))
          (on_data k env))
       (on_error k))
    (on_settled k).

(** [setupFormHandlers] binds a listener only to a form that exists; a
    submit event on form [k] then runs it to settlement. On a page
    without the form nothing happens. *)
Definition submit (k : form_id) (env : environment) (w : world) : world :=
  match get_form k w with
  | Some _ => snd (submit_listener k env w)
  | None => w
  end.

(** Observations on the state after a submission. *)
Definition event_eqb_reaction (r : reaction) (e : event) : bool :=
  match e, r with
  | EReaction OnResponse, OnResponse => true
  | EReaction OnData, OnData => true
  | EReaction OnError, OnError => true
  | EReaction OnSettled, OnSettled => true
  | _, _ => false
  end.

(** How many times reaction [r] has run. *)
Definition times (r : reaction) (w : world) : nat :=
  List.length (filter (event_eqb_reaction r) (trace w)).

Definition navigations (w : world) : list string :=
  flat_map (fun e => match e with ENavigate h => [h] | _ => [] end) (trace w).

Definition requests (w : world) : list string :=
  flat_map (fun e => match e with EFetch _ url _ => [url] | _ => [] end) (trace w).

Definition console_errors (w : world) : list js_error :=
  flat_map (fun e => match e with EConsoleError _ x => [x] | _ => [] end) (trace w).

Definition timers (w : world) : list Z :=
  flat_map (fun e => match e with ESetTimeout ms _ => [ms] | _ => [] end) (trace w).

(** The notifications in the notification area. *)
Definition notifications (w : world) : list node :=
  match alerts_container w with Some c => children c | None => [] end.

Definition busy (f : form) : bool :=
  match submitBtn f with Some b => disabled b | None => false end.


(** ** The candidate scores chart ([static/js/charts.js]) *)

Module Charts.

(** The result of a numeric conversion or of an arithmetic operation.
    Of a finite result only the sign is ever used, and the sign of a
    difference of two finite floating-point numbers is the sign of the
    exact difference. *)
Inductive number : Type :=
| NaN
| Finite (q : Q)
| Infinity (negative : bool).

(** [ToNumber]. The conversion of a string is the engine's
    ([StringToNumber]); an array or an object is first converted to a
    primitive, which for a parsed JSON value is its [ToString]. *)
Definition ToNumber (StringToNumber : string -> number) (v : value)
  : outcome number :=
  match v with
  | VUndefined => Ok NaN
  | VNull => Ok (Finite 0)
  | VBool true => Ok (Finite 1)
  | VBool false => Ok (Finite 0)
  | VNum q _ => Ok (Finite q)
  | VStr s => Ok (StringToNumber s)
  | VArr _ | VObj _ => s <- ToString v ;; Ok (StringToNumber s)
  end.

(** [a - b] *)
Definition subtract (a b : number) : number :=
  match a, b with
  | NaN, _ | _, NaN => NaN
  | Finite x, Finite y => Finite (x - y)
  | Finite _, Infinity negative => Infinity (negb negative)
  | Infinity negative, Finite _ => Infinity negative
  | Infinity n1, Infinity n2 => if Bool.eqb n1 n2 then NaN else Infinity n1
  end.

(** [x >= bound] for a finite [bound] *)
Definition at_least (x : number) (bound : Q) : bool :=
  match x with
  | NaN => false
  | Finite q => Qle_bool bound q
  | Infinity negative => negb negative
  end.

(** [(a, b) => b.score - a.score] *)
Definition by_score_descending (StringToNumber : string -> number)
    (a b : value) : outcome number :=
  b_score <- get_prop b "score" ;;
  a_score <- get_prop a "score" ;;
  nb <- ToNumber StringToNumber b_score ;;
  na <- ToNumber StringToNumber a_score ;;
  Ok (subtract nb na).

(** What a sort makes of the result [v] of the comparator on [(x, y)]:
    [x] is not moved behind [y] unless [v > 0]; [NaN] counts as [+0]. *)
Definition keeps_in_front (v : number) : bool :=
  match v with
  | NaN => true
  | Finite q => Qle_bool q 0
  | Infinity negative => negative
  end.

(** [Array.prototype.sort(cmp)] on the elements that are not [undefined]:
    a stable sort, computed by insertion from the right. For a consistent
    comparator every stable sort gives this result; for an inconsistent
    one (a comparator that yields [NaN]) the language leaves the order to
    the engine, and the result here is the one of the insertion. An
    exception of the comparator ends the sort. *)
Fixpoint sort_insert (cmp : value -> value -> outcome number)
    (x : value) (l : list value) : outcome (list value) :=
  match l with
  | [] => Ok [x]
  | y :: rest =>
      v <- cmp x y ;;
      if keeps_in_front v then Ok (x :: y :: rest)
      else rest' <- sort_insert cmp x rest ;; Ok (y :: rest')
  end.

Fixpoint sort_defined (cmp : value -> value -> outcome number)
    (l : list value) : outcome (list value) :=
  match l with
  | [] => Ok []
  | x :: rest => sorted <- sort_defined cmp rest ;; sort_insert cmp x sorted
  end.

Definition is_undefined (v : value) : bool :=
  match v with VUndefined => true | _ => false end.

(** [Array.prototype.sort(cmp)]: the elements that are [undefined] are
    not compared, they go to the end. *)
Definition Array_sort (cmp : value -> value -> outcome number)
    (l : list value) : outcome (list value) :=
  sorted <- sort_defined cmp (filter (fun v => negb (is_undefined v)) l) ;;
  Ok (sorted ++ filter is_undefined l)%list.

(** [array.map(f)] with a callback that may throw. *)
Fixpoint Array_map {A} (f : value -> outcome A) (l : list value)
  : outcome (list A) :=
  match l with
  | [] => Ok []
  | x :: rest => y <- f x ;; ys <- Array_map f rest ;; Ok (y :: ys)
  end.

(** [item => { if (item.score >= 75) ...; if (item.score >= 50) ...; ... }] *)
Definition colour_of (StringToNumber : string -> number)
    (green yellow red : string) (item : value) : outcome string :=
  score <- get_prop item "score" ;;
  n <- ToNumber StringToNumber score ;;
  if at_least n 75 then Ok green
  else
    score <- get_prop item "score" ;;
    n <- ToNumber StringToNumber score ;;
    if at_least n 50 then Ok yellow else Ok red.

Definition background_of (StringToNumber : string -> number) : value -> outcome string :=
  colour_of StringToNumber
    "rgba(40, 167, 69, 0.7)" "rgba(255, 193, 7, 0.7)" "rgba(220, 53, 69, 0.7)".

Definition border_of (StringToNumber : string -> number) : value -> outcome string :=
  colour_of StringToNumber
    "rgb(40, 167, 69)" "rgb(255, 193, 7)" "rgb(220, 53, 69)".

(** The data of the configuration handed to [new Chart]. *)
Record bar_chart : Type := mkBarChart {
  labels : list value;
  dataset_label : string;
  dataset_data : list value;
  backgroundColor : list string;
  borderColor : list string;
  borderWidth : Z
}.

(** The second [then] of [createCandidateScoresChart], on whatever
    [response.json()] delivered: [data.sort] exists on an array only. *)
Definition createCandidateScoresChart (StringToNumber : string -> number)
    (data : value) : outcome bar_chart :=
  data <- match data with
          | VArr items => Array_sort (by_score_descending StringToNumber) items
          | VUndefined | VNull =>
              Throw (TypeError "Cannot read properties of null or undefined: sort")
          | _ => Throw (TypeError "data.sort is not a function")
          end ;;
  labels <- Array_map (fun item => get_prop item "name") data ;;
  scores <- Array_map (fun item => get_prop item "score") data ;;
  backgrounds <- Array_map (background_of StringToNumber) data ;;
  borders <- Array_map (border_of StringToNumber) data ;;
  Ok (mkBarChart labels "Match Score (%)" scores backgrounds borders 1).

End Charts.

(** ** File upload areas *)

Module FileUpload.

Record file : Type := mkFile { name : string }.

(** An [input type="file"] with its [files] list. *)
Record file_input : Type := mkInput { files : list file }.

(** A [.file-upload] block with the three elements
    [initializeFileUploads] queries in it. *)
Record upload : Type := mkUpload {
  input : option file_input;           (* input[type="file"] *)
  uploadArea : option element;         (* .upload-area *)
  fileNameDisplay : option element     (* .file-name *)
}.

(** [display.textContent = s] on an element of the page. *)
Definition set_text (e : element) (s : string) : element :=
  mkElement (classList e) (if String.eqb s "" then [] else [TextNode s]).

Definition with_classList (op : list string -> list string) (e : element) : element :=
  mkElement (op (classList e)) (children e).

Definition updateFileName (input : file_input) (display : option element)
  : option element :=
  match display with
  | None => None
  | Some display =>
      match files input with
      | first :: _ =>
          let display := set_text display (name first) in
          Some (with_classList (classList_remove "d-none") display)
      | [] =>
          let display := set_text display "" in
          Some (with_classList (classList_add "d-none") display)
      end
  end.

(** What reaches a block: a click on the area, the three drag events on
    it with the dragged files, and the user choosing files in the dialog
    of the input (the browser stores them in [input.files] and fires
    [change]). *)
Inductive upload_event : Type :=
| Click
| DragOver
| DragLeave
| Drop (dataTransfer_files : list file)
| Select (chosen : list file).

Inductive effect : Type :=
| PreventDefault
| InputClick.

(** One event on a block after [initializeFileUploads] has run. The five
    listeners exist only on a block that has both the area and the input
    ([if (!uploadArea || !input) return]); without them an event changes
    nothing, except that the browser still stores chosen files in an
    input that exists. *)
Definition handle (u : upload) (e : upload_event) : upload * list effect :=
  match uploadArea u, input u with
  | Some area, Some inp =>
      match e with
      | Click => (u, [InputClick])
      | DragOver =>
          (mkUpload (Some inp)
                    (Some (with_classList (classList_add "active") area))
                    (fileNameDisplay u),
           [PreventDefault])
      | DragLeave =>
          (mkUpload (Some inp)
                    (Some (with_classList (classList_remove "active") area))
                    (fileNameDisplay u),
           [])
      | Drop dropped =>
          let area := with_classList (classList_remove "active") area in
          match dropped with
          | [] => (mkUpload (Some inp) (Some area) (fileNameDisplay u),
                   [PreventDefault])
          | _ :: _ =>
              let inp := mkInput dropped in
              (mkUpload (Some inp) (Some area)
                        (updateFileName inp (fileNameDisplay u)),
               [PreventDefault])
          end
      | Select chosen =>
          let inp := mkInput chosen in
          (mkUpload (Some inp) (Some area)
                    (updateFileName inp (fileNameDisplay u)),
           [])
      end
  | None, Some _ =>
      match e with
      | Select chosen => (mkUpload (Some (mkInput chosen)) None (fileNameDisplay u), [])
      | _ => (u, [])
      end
  | _, None => (u, [])
  end.

(** A sequence of events, with the effects in order. *)
Fixpoint run (u : upload) (events : list upload_event) : upload * list effect :=
  match events with
  | [] => (u, [])
  | e :: rest =>
      let (u1, fx) := handle u e in
      let (u2, fx') := run u1 rest in
      (u2, (fx ++ fx')%list)
  end.

End FileUpload.

(** ** Vocabulary of the statements *)

(** The four fields of an analysis with the titles of their sections, in
    the order of the [sections] literal. *)
Definition analysis_fields : list (string * string) :=
  [("skills", "Required Skills");
   ("experience", "Experience Requirements");
   ("qualifications", "Qualifications");
   ("responsibilities", "Responsibilities")].

Definition contents (c : option element) : list node :=
  match c with Some e => children e | None => [] end.

(** The list items of a section: the children of its [ul]. *)
Definition list_items (section : node) : list node :=
  flat_map (fun n => if String.eqb (tag_of n) "ul" then child_nodes n else [])
           (child_nodes section).

Definition is_string (v : value) : bool :=
  match v with VStr _ => true | _ => false end.

Definition is_string_array (v : value) : bool :=
  match v with VArr l => forallb is_string l | _ => false end.

(** A field the renderer copes with: absent or falsy, or an array of
    strings. *)
Definition well_formed_field (v : value) : bool :=
  negb (truthy v) || is_string_array v.

(** The section of an empty sequence of items. *)
Definition placeholder_section (title : string) : node :=
  Element "div" "mb-4" []
    [Element "h5" "" [] [TextNode title];
     Element "p" "text-muted fst-italic" [] [TextNode "No items detected"]].

Definition item_node (s : string) : node :=
  set_textContent (Element "li" "list-group-item" [] []) s.

(** The section of a non-empty sequence of strings. *)
Definition list_section (title : string) (items : list string) : node :=
  Element "div" "mb-4" []
    [set_textContent (Element "h5" "" [] []) title;
     Element "ul" "list-group" [] (map item_node items)].

(** *** The stages of a submission *)

(** The page after [showAlert(type, message)]. *)
Definition with_alert (type message : string) (w : world) : world :=
  match alerts_container w with
  | None => w
  | Some c =>
      emit (ESetTimeout 5000 (alert_node type message))
           (set_alerts_container
              (mkElement (classList c) (children c ++ [alert_node type message])%list) w)
  end.

(** The page when the listener has set the busy state and issued the
    request. *)
Definition request_sent (k : form_id) (f : form) (w : world) : world :=
  emit (EFetch "POST" (endpoint k) (fields f))
    (set_form k (spinner_classList (classList_remove "d-none") (set_disabled true f))
       (emit EPreventDefault w)).

(** The page on which the second [then] handler starts. *)
Definition data_arrived (k : form_id) (f : form) (w : world) : world :=
  emit (EReaction OnData) (emit (EReaction OnResponse) (request_sent k f w)).

(** The page after the [catch] handler ran on error [e]. *)
Definition caught (k : form_id) (e : js_error) (w : world) : world :=
  with_alert "danger" (failure_message k)
    (emit (EConsoleError "Error:" e) (emit (EReaction OnError) w)).

(** The page after the [finally] handler ran. *)
Definition settled (k : form_id) (w : world) : world :=
  let w := emit (EReaction OnSettled) w in
  match get_form k w with
  | Some f =>
      set_form k (spinner_classList (classList_add "d-none") (set_disabled false f)) w
  | None => w
  end.

(** The settlement of the chain before [catch]. *)
Definition delivered (k : form_id) (env : environment) (w1 : world)
  : outcome unit * world :=
  match net env with
  | NetworkFailure => (Throw (TypeError "Failed to fetch"), w1)
  | Response status body =>
      let w2 := emit (EReaction OnResponse) w1 in
      if response_ok status then
        match body with
        | Some data => on_data k env data (emit (EReaction OnData) w2)
        | None => (Throw (SyntaxError "Unexpected token in JSON"), w2)
        end
      else (Throw (Error "Network response was not ok"), w2)
  end.

(** The timer [showAlert] sets, when there is a notification area. *)
Definition alert_timer (type message : string) (w : world) : list event :=
  match alerts_container w with
  | Some _ => [ESetTimeout 5000 (alert_node type message)]
  | None => []
  end.

(** The navigation the resume handler starts for [data]. *)
Definition nav_events (env : environment) (data : value) : list event :=
  match get_prop data "redirect" with
  | Ok redirect =>
      if truthy redirect then
        match ToString redirect with
        | Ok href => if url_parses env href then [ENavigate href] else []
        | Throw _ => []
        end
      else []
  | Throw _ => []
  end.

(** Whether the second [then] handler throws on [data], on a page whose
    results container is [results]. *)
Definition data_handler_throws (k : form_id) (env : environment)
    (results : option element) (data : value) : bool :=
  match k with
  | JD =>
      match results with
      | None => false
      | Some _ =>
          match get_prop data "analysis" with
          | Throw _ => true
          | Ok analysis => truthy analysis && negb (is_ok (build_sections analysis))
          end
      end
  | CV =>
      match get_prop data "redirect" with
      | Throw _ => true
      | Ok redirect =>
          truthy redirect &&
          match ToString redirect with
          | Throw _ => true
          | Ok href => negb (url_parses env href)
          end
      end
  end.

(** The page when the chain up to [catch] has run. *)
Definition responded (k : form_id) (env : environment) (w1 : world) : world :=
  match delivered k env w1 with
  | (Ok _, w3) => w3
  | (Throw e, w3) => caught k e w3
  end.

(** The upload failed before the success handler: no response, a status
    outside 200..299, or a body that is not JSON. *)
Definition failed (r : fetch_result) : bool :=
  match r with
  | NetworkFailure => true
  | Response status body =>
      negb (response_ok status) ||
      match body with Some _ => false | None => true end
  end.

(** The page when the first [then] has run, on a failed upload. *)
Definition after_response (r : fetch_result) (w1 : world) : world :=
  match r with
  | NetworkFailure => w1
  | Response _ _ => emit (EReaction OnResponse) w1
  end.

(** The error the chain is rejected with on a failed upload. *)
Definition rejection (r : fetch_result) : js_error :=
  match r with
  | NetworkFailure => TypeError "Failed to fetch"
  | Response status _ =>
      if response_ok status then SyntaxError "Unexpected token in JSON"
      else Error "Network response was not ok"
  end.

Definition reaction_eqb (a b : reaction) : bool :=
  match a, b with
  | OnResponse, OnResponse | OnData, OnData
  | OnError, OnError | OnSettled, OnSettled => true
  | _, _ => false
  end.

Definition occurrences (r : reaction) (l : list reaction) : nat :=
  List.length (filter (reaction_eqb r) l).

(** The reactions of a chain before [finally], read off the source: the
    first [then] runs on any response, the second on a 2xx response with
    a JSON body, [catch] on any rejection. *)
Definition reactions_run (k : form_id) (env : environment)
    (results : option element) : list reaction :=
  match net env with
  | NetworkFailure => [OnError]
  | Response status body =>
      OnResponse ::
      if response_ok status then
        match body with
        | Some data =>
            OnData ::
            if data_handler_throws k env results data then [OnError] else []
        | None => [OnError]
        end
      else [OnError]
  end.

Definition lenient_parser : string -> bool := fun _ => true.

Definition example_form : form :=
  mkForm [("file", "document.pdf")]
         (Some (mkButton false))
         (Some (mkElement ["spinner-container"; "d-none"] [])).

(** A page with both forms, a notification area and a results container. *)
Definition example_page : world :=
  mkWorld (Some example_form) (Some example_form)
          (Some (mkElement [] []))
          (Some (mkElement ["d-none"] []))
          [].

(** The same page without the notification area. *)
Definition page_without_alerts : world :=
  mkWorld (Some example_form) (Some example_form)
          None
          (Some (mkElement ["d-none"] []))
          [].

(** C2 as the specification states it: the status alone decides which
    one of the two branches runs. *)
Definition branch_by_status (k : form_id) (env : environment) (w : world) : Prop :=
  match net env with
  | Response status _ =>
      let w' := submit k env w in
      if response_ok status
      then times OnData w' = S (times OnData w) /\ times OnError w' = times OnError w
      else times OnError w' = S (times OnError w) /\ times OnData w' = times OnData w
  | NetworkFailure => True
  end.

(** C4 as the specification states it: one danger notification with the
    fixed text is shown. *)
Definition shows_one_danger (k : form_id) (w w' : world) : Prop :=
  notifications w' =
  (notifications w ++ [alert_node "danger" (failure_message k)])%list.


(** *** Further vocabulary *)

(** *** Scored payloads *)

(** The score of an item that has a finite number as its [score]. *)
Definition score_of (item : value) : option Q :=
  match get_prop item "score" with
  | Ok (VNum q _) => Some q
  | _ => None
  end.

Definition well_scored (item : value) : bool :=
  match score_of item with Some _ => true | None => false end.

(** [item.key] of an item that is an object. *)
Definition property (key : string) (item : value) : value :=
  match get_prop item key with Ok v => v | Throw _ => VUndefined end.

(** The bar of an item: its label and its datum. *)
Definition bar_of (item : value) : value * value :=
  (property "name" item, property "score" item).

(** The numbers among the data of a chart, in order. *)
Definition numbers (data : list value) : list Q :=
  flat_map (fun v => match v with VNum q _ => [q] | _ => [] end) data.

(** C10 as the specification states it: the scores of the bars never
    rise from one bar to the next. *)
Definition descending (chart : Charts.bar_chart) : Prop :=
  StronglySorted (fun x y => (y <= x)%Q) (numbers (Charts.dataset_data chart)).

(** Item [a] may stand before item [b]: its score is not smaller. *)
Definition not_below (a b : value) : Prop :=
  match score_of a, score_of b with
  | Some qa, Some qb => (qb <= qa)%Q
  | _, _ => False
  end.

(** The order scored items are put in. *)
Definition stands_before (x y : value) : bool :=
  match score_of x, score_of y with
  | Some qx, Some qy => Qle_bool (qy - qx) 0
  | _, _ => true
  end.

Fixpoint insert_scored (x : value) (l : list value) : list value :=
  match l with
  | [] => [x]
  | y :: rest =>
      if stands_before x y then x :: y :: rest else y :: insert_scored x rest
  end.

Fixpoint sort_scored (l : list value) : list value :=
  match l with
  | [] => []
  | x :: rest => insert_scored x (sort_scored rest)
  end.

(** Items whose score equals [s]; data equal to [s]. *)
Definition scored (s : Q) (item : value) : bool :=
  match score_of item with Some q => Qeq_bool q s | None => false end.

Definition is_number (s : Q) (v : value) : bool :=
  match v with VNum q _ => Qeq_bool q s | _ => false end.

(** The three score bands of the bar colours. *)
Definition high (item : value) : bool :=
  match score_of item with Some q => Qle_bool 75 q | None => false end.

Definition medium (item : value) : bool :=
  match score_of item with
  | Some q => negb (Qle_bool 75 q) && Qle_bool 50 q
  | None => false
  end.

Definition low (item : value) : bool :=
  match score_of item with Some q => negb (Qle_bool 50 q) | None => false end.

Definition count {A} (p : A -> bool) (l : list A) : nat :=
  List.length (filter p l).

(** An engine's conversion that reads no string as a number. *)
Definition no_numeric_strings : string -> Charts.number := fun _ => Charts.NaN.

Definition candidate (name : string) (score : Q) (text : string) : value :=
  VObj [("name", VStr name); ("score", VNum score text)].

(** A payload in non-increasing order of score, and one whose second
    item has no score. *)
Definition ordered_payload : list value :=
  [candidate "Di" 90 "90"; candidate "Bob" (175 # 2) "87.5";
   candidate "Ada" 50 "50"].

Definition payload_missing_a_score : list value :=
  [candidate "Ada" 10 "10"; VObj [("name", VStr "Bob")]; candidate "Cy" 90 "90"].

(** The colour of the band of a scored item. *)
Definition band_colour (green yellow red : string) (item : value) : string :=
  match score_of item with
  | Some q => if Qle_bool 75 q then green else if Qle_bool 50 q then yellow else red
  | None => red
  end.

Definition score_or_zero (item : value) : Q :=
  match score_of item with Some q => q | None => 0 end.

(** The heading of a section. *)
Definition heading_node (title : string) : node :=
  Element "h5" "" [] [TextNode title].

(** The requests issued so far: method, URL and body. *)
Definition fetched (w : world) : list (string * string * list (string * string)) :=
  flat_map (fun e => match e with EFetch m url body => [(m, url, body)] | _ => [] end)
           (trace w).

(** The block has both the area and the input, so the listeners exist. *)
Definition bound (u : FileUpload.upload) : bool :=
  match FileUpload.uploadArea u, FileUpload.input u with
  | Some _, Some _ => true
  | _, _ => false
  end.

(** The display shows the selection of the input: the name of the first
    file, visible, or nothing, hidden. *)
Definition shows_selection (inp : FileUpload.file_input) (d : element) : Prop :=
  match FileUpload.files inp with
  | [] => has_class "d-none" (classList d) = true /\ children d = []
  | first :: _ =>
      has_class "d-none" (classList d) = false
      /\ children d = if String.eqb (FileUpload.name first) "" then []
                      else [TextNode (FileUpload.name first)]
  end.

Definition display_in_step (u : FileUpload.upload) : Prop :=
  match FileUpload.input u, FileUpload.fileNameDisplay u with
  | Some inp, Some d => shows_selection inp d
  | _, _ => True
  end.

(** The area is highlighted. *)
Definition active (u : FileUpload.upload) : bool :=
  match FileUpload.uploadArea u with
  | Some area => has_class "active" (classList area)
  | None => false
  end.

(** The highlight as the drag events alone determine it. *)
Definition drag_state (highlighted : bool) (e : FileUpload.upload_event) : bool :=
  match e with
  | FileUpload.DragOver => true
  | FileUpload.DragLeave | FileUpload.Drop _ => false
  | FileUpload.Click | FileUpload.Select _ => highlighted
  end.

(** A block with an empty input and a hidden display. *)
Definition example_upload : FileUpload.upload :=
  FileUpload.mkUpload
    (Some (FileUpload.mkInput []))
    (Some (mkElement ["upload-area"] []))
    (Some (mkElement ["file-name"; "d-none"] [])).

(** A block whose area is missing. *)
Definition incomplete_upload : FileUpload.upload :=
  FileUpload.mkUpload
    (Some (FileUpload.mkInput []))
    None
    (Some (mkElement ["file-name"; "d-none"] [])).


(** ** The result renderer: proofs *)

Section Renderer.

Lemma append_empty_r (s : string) : s ++ "" = s.
Proof. induction s as [|a s IH]; simpl; [reflexivity | now rewrite IH]. Qed.

Lemma textContent_item_node (s : string) : textContent (item_node s) = Some s.
Proof.
  unfold item_node, set_textContent.
  destruct (String.eqb_spec s "") as [->|Hne]; simpl.
  - reflexivity.
  - now rewrite append_empty_r.
Qed.

Lemma markup_free_item_node (s : string) : markup_free (item_node s) = true.
Proof.
  unfold item_node, set_textContent. now destruct (String.eqb s "").
Qed.

(** The loop of [createAnalysisSection] over strings appends one item node
    per string, in order. *)
Lemma forEach_strings (items : list string) : forall acc : list node,
  forEach_items (map VStr items) append_list_item
    (Element "ul" "list-group" [] acc)
  = Ok (Element "ul" "list-group" [] (acc ++ map item_node items)%list).
Proof.
  induction items as [|s items IH]; intros acc; simpl.
  - now rewrite app_nil_r.
  - rewrite IH. now rewrite <- app_assoc.
Qed.

Lemma createAnalysisSection_empty (title : string) :
  createAnalysisSection title (VArr []) =
  Ok (Element "div" "mb-4" []
        [set_textContent (Element "h5" "" [] []) title;
         Element "p" "text-muted fst-italic" [] [TextNode "No items detected"]]).
Proof. reflexivity. Qed.

Lemma createAnalysisSection_strings (title : string) (items : list string) :
  items <> [] ->
  createAnalysisSection title (VArr (map VStr items)) = Ok (list_section title items).
Proof.
  intros Hne. destruct items as [|s items]; [congruence|].
  unfold createAnalysisSection, forEach.
  cbn [length_is_zero map JS.bind createElement set_className].
  change (VStr s :: map VStr items) with (map VStr (s :: items)).
  rewrite (forEach_strings (s :: items) []).
  reflexivity.
Qed.

Lemma string_array_inv (v : value) :
  is_string_array v = true -> exists l, v = VArr (map VStr l).
Proof.
  destruct v as [| | | | |l|]; simpl; try discriminate.
  induction l as [|x l IH]; intros H.
  - now exists [].
  - simpl in H. apply andb_prop in H as [Hx Hl].
    destruct (IH Hl) as [l' El]. injection El as El.
    destruct x; try discriminate. exists (s :: l'). simpl. now rewrite El.
Qed.

(** A well-formed field always yields a section. *)
Lemma well_formed_section (title : string) (v : value) :
  well_formed_field v = true ->
  exists sec, createAnalysisSection title (or_else v (VArr [])) = Ok sec
              /\ (truthy v = false ->
                  createAnalysisSection title (VArr []) = Ok sec).
Proof.
  unfold well_formed_field, or_else. intros H.
  destruct (truthy v) eqn:Ht; simpl in H.
  - destruct (string_array_inv v H) as [l ->].
    destruct l as [|s l].
    + eexists; split; [reflexivity | discriminate].
    + eexists; split; [apply createAnalysisSection_strings; discriminate
                      | discriminate].
  - eexists; split; [reflexivity | reflexivity].
Qed.

Lemma populate_contents (a : value) (c : element) :
  contents (snd (populateJdResults a (Some c))) =
  match build_sections a with
  | Ok sections => Object_values sections
  | Throw _ => []
  end.
Proof.
  unfold populateJdResults.
  destruct (build_sections a) as [secs|e]; simpl; [|reflexivity].
  generalize (classList c). intros cl.
  assert (G : forall (l : list node) (e : element),
             children (fold_left
                         (fun c0 section =>
                            mkElement (classList c0) (children c0 ++ [section])%list)
                         l e) = (children e ++ l)%list).
  { induction l as [|x l IH]; intros e; simpl.
    - now rewrite app_nil_r.
    - rewrite IH. simpl. now rewrite <- app_assoc. }
  now rewrite G.
Qed.

Lemma populate_keeps_container (a : value) (c : element) :
  exists c', snd (populateJdResults a (Some c)) = Some c'.
Proof.
  unfold populateJdResults. destruct (build_sections a); simpl; eauto.
Qed.

End Renderer.

Section RendererClaims.

Lemma populate_completion (a : value) (c : element) :
  fst (populateJdResults a (Some c)) =
  match build_sections a with Ok _ => Ok tt | Throw e => Throw e end.
Proof.
  unfold populateJdResults. now destruct (build_sections a).
Qed.

Lemma markup_free_items (items : list string) :
  markup_free (Element "ul" "list-group" [] (map item_node items)) = true.
Proof.
  cbn [markup_free]. induction items as [|s items IH]; cbn [map]; [reflexivity|].
  now rewrite markup_free_item_node, IH.
Qed.

(** C3 fails as stated: a field holding the number 5 is not treated as
    an empty sequence, the renderer throws on it. *)
Lemma number_field_throws :
  fst (populateJdResults (VObj [("skills", VNum 5 "5")])
         (Some (mkElement ["d-none"] []))) =
  Throw (TypeError "items.forEach is not a function").
Proof. reflexivity. Qed.

(** C3, as amended. When each of the four fields of the analysis is
    absent, falsy, or an array of strings, the renderer returns normally,
    and the section of every absent or falsy field is the section of the
    empty sequence. *)
Theorem well_formed_fields_render (a : value) (c : element) :
  (forall k t, In (k, t) analysis_fields ->
     exists v, get_prop a k = Ok v /\ well_formed_field v = true) ->
  fst (populateJdResults a (Some c)) = Ok tt /\
  (forall i k t v,
     nth_error analysis_fields i = Some (k, t) ->
     get_prop a k = Ok v -> truthy v = false ->
     exists sec,
       nth_error (contents (snd (populateJdResults a (Some c)))) i = Some sec
       /\ createAnalysisSection t (VArr []) = Ok sec).
Proof.
  intros H.
  destruct (H "skills" "Required Skills") as (v1 & G1 & W1); [simpl; tauto|].
  destruct (H "experience" "Experience Requirements") as (v2 & G2 & W2);
    [simpl; tauto|].
  destruct (H "qualifications" "Qualifications") as (v3 & G3 & W3);
    [simpl; tauto|].
  destruct (H "responsibilities" "Responsibilities") as (v4 & G4 & W4);
    [simpl; tauto|].
  destruct (well_formed_section "Required Skills" v1 W1) as (s1 & S1 & Z1).
  destruct (well_formed_section "Experience Requirements" v2 W2) as (s2 & S2 & Z2).
  destruct (well_formed_section "Qualifications" v3 W3) as (s3 & S3 & Z3).
  destruct (well_formed_section "Responsibilities" v4 W4) as (s4 & S4 & Z4).
  assert (B : build_sections a =
              Ok [("skills", s1); ("experience", s2);
                  ("qualifications", s3); ("responsibilities", s4)]).
  { unfold build_sections.
    rewrite G1; cbn [JS.bind]; rewrite S1; cbn [JS.bind].
    rewrite G2; cbn [JS.bind]; rewrite S2; cbn [JS.bind].
    rewrite G3; cbn [JS.bind]; rewrite S3; cbn [JS.bind].
    rewrite G4; cbn [JS.bind]; rewrite S4; cbn [JS.bind].
    reflexivity. }
  split.
  - now rewrite populate_completion, B.
  - intros i k t v Hi Hk Hv.
    rewrite populate_contents, B. cbn [Object_values map snd].
    destruct i as [|[|[|[|i]]]]; simpl in Hi.
    + injection Hi as <- <-. rewrite G1 in Hk. injection Hk as <-.
      exists s1. split; [reflexivity | auto].
    + injection Hi as <- <-. rewrite G2 in Hk. injection Hk as <-.
      exists s2. split; [reflexivity | auto].
    + injection Hi as <- <-. rewrite G3 in Hk. injection Hk as <-.
      exists s3. split; [reflexivity | auto].
    + injection Hi as <- <-. rewrite G4 in Hk. injection Hk as <-.
      exists s4. split; [reflexivity | auto].
    + destruct i; discriminate.
Qed.

(** C5. An analysis whose [skills] is the array "Go", "Rust" and whose
    other three fields are absent is rendered as four sections in the
    order skills, experience, qualifications, responsibilities, whatever
    else the object holds and in whatever order: the first is a list of
    the two items in input order, the other three show the placeholder. *)
Theorem go_rust_sections (a : value) (c : element) :
  get_prop a "skills" = Ok (VArr [VStr "Go"; VStr "Rust"]) ->
  get_prop a "experience" = Ok VUndefined ->
  get_prop a "qualifications" = Ok VUndefined ->
  get_prop a "responsibilities" = Ok VUndefined ->
  populateJdResults a (Some c) =
  (Ok tt,
   Some (mkElement
           (classList_remove "d-none" (classList_add "fade-in" (classList c)))
           [Element "div" "mb-4" []
              [Element "h5" "" [] [TextNode "Required Skills"];
               Element "ul" "list-group" []
                 [Element "li" "list-group-item" [] [TextNode "Go"];
                  Element "li" "list-group-item" [] [TextNode "Rust"]]];
            placeholder_section "Experience Requirements";
            placeholder_section "Qualifications";
            placeholder_section "Responsibilities"])).
Proof.
  intros H1 H2 H3 H4.
  unfold populateJdResults, build_sections.
  rewrite H1, H2, H3, H4. reflexivity.
Qed.

(** C6. After two calls of the renderer on one container, the container
    holds exactly the sections built from the second input, the four of
    them in order when the second call returns and none when it throws,
    which is what the second call alone puts into an empty container:
    nothing of the first call is left. *)
Theorem second_render_replaces_first (a1 a2 : value) (c : element) :
  let c2 := snd (populateJdResults a2 (snd (populateJdResults a1 (Some c)))) in
  contents c2 =
    match build_sections a2 with
    | Ok sections => Object_values sections
    | Throw _ => []
    end
  /\ (forall v1 v2 v3 v4 s1 s2 s3 s4,
        get_prop a2 "skills" = Ok v1 ->
        createAnalysisSection "Required Skills" (or_else v1 (VArr [])) = Ok s1 ->
        get_prop a2 "experience" = Ok v2 ->
        createAnalysisSection "Experience Requirements" (or_else v2 (VArr [])) = Ok s2 ->
        get_prop a2 "qualifications" = Ok v3 ->
        createAnalysisSection "Qualifications" (or_else v3 (VArr [])) = Ok s3 ->
        get_prop a2 "responsibilities" = Ok v4 ->
        createAnalysisSection "Responsibilities" (or_else v4 (VArr [])) = Ok s4 ->
        contents c2 = [s1; s2; s3; s4])
  /\ contents c2 =
     contents (snd (populateJdResults a2 (Some (mkElement (classList c) [])))).
Proof.
  destruct (populate_keeps_container a1 c) as [c1 E1].
  cbv zeta. rewrite E1, !populate_contents.
  split; [reflexivity|]. split; [|reflexivity].
  intros v1 v2 v3 v4 s1 s2 s3 s4 G1 S1 G2 S2 G3 S3 G4 S4.
  unfold build_sections.
  rewrite G1; cbn [JS.bind]; rewrite S1; cbn [JS.bind].
  rewrite G2; cbn [JS.bind]; rewrite S2; cbn [JS.bind].
  rewrite G3; cbn [JS.bind]; rewrite S3; cbn [JS.bind].
  rewrite G4; cbn [JS.bind]; rewrite S4; cbn [JS.bind].
  reflexivity.
Qed.

(** C8. Every string of a sequence of items becomes one list item of the
    section, in input order, whose content is a single text node holding
    the string (no node at all for the empty string): its text content is
    the input string, and no part of the section comes from markup. *)
Theorem items_rendered_as_text (title : string) (items : list string) :
  exists sec,
    createAnalysisSection title (VArr (map VStr items)) = Ok sec
    /\ map textContent (list_items sec) = map Some items
    /\ map child_nodes (list_items sec) =
       map (fun s => if String.eqb s "" then [] else [TextNode s]) items
    /\ markup_free sec = true.
Proof.
  destruct items as [|s items].
  - eexists. split; [apply createAnalysisSection_empty|].
    unfold set_textContent; destruct (String.eqb title ""); repeat split.
  - eexists. split; [apply createAnalysisSection_strings; discriminate|].
    assert (L : list_items (list_section title (s :: items)) =
                map item_node (s :: items)).
    { unfold list_section, list_items, set_textContent.
      cbn [child_nodes flat_map tag_of].
      change (String.eqb "h5" "ul") with false.
      change (String.eqb "ul" "ul") with true.
      cbn [app child_nodes]. now rewrite app_nil_r. }
    rewrite L. repeat split.
    + rewrite map_map. apply map_ext. intros x. apply textContent_item_node.
    + rewrite map_map. apply map_ext. intros x.
      unfold item_node, set_textContent. reflexivity.
    + unfold list_section.
      pose proof (markup_free_items (s :: items)) as M.
      unfold set_textContent. destruct (String.eqb title "");
        cbn [markup_free andb] in *; now rewrite M.
Qed.

End RendererClaims.

(** ** The upload coordinator: proofs *)

Section Coordinator.

Lemma showAlert_run (type message : string) (w : world) :
  showAlert type message w = (Ok tt, with_alert type message w).
Proof.
  unfold showAlert, with_alert, mbind, get, modify, ret.
  now destruct (alerts_container w).
Qed.

Lemma on_error_run (k : form_id) (e : js_error) (w : world) :
  on_error k e (emit (EReaction OnError) w) = (Ok tt, caught k e w).
Proof.
  unfold on_error, caught, mbind, modify. now rewrite showAlert_run.
Qed.

Lemma get_set_form (k : form_id) (g : form) (w : world) :
  get_form k (set_form k g w) = Some g.
Proof. now destruct k. Qed.

Lemma set_set_form (k : form_id) (g g' : form) (w : world) :
  set_form k g (set_form k g' w) = set_form k g w.
Proof. now destruct k. Qed.

Lemma get_form_emit (k : form_id) (e : event) (w : world) :
  get_form k (emit e w) = get_form k w.
Proof. now destruct k. Qed.

Lemma on_settled_run (k : form_id) (w : world) :
  on_settled k (emit (EReaction OnSettled) w) = (Ok tt, settled k w).
Proof.
  unfold on_settled, settled, mbind, update_form, modify.
  destruct (get_form k (emit (EReaction OnSettled) w)) as [f|] eqn:E.
  - now rewrite get_set_form, set_set_form.
  - now rewrite E.
Qed.

Lemma chain_run (k : form_id) (env : environment)
    (formData : list (string * string)) (w0 : world) :
  snd (finally_ OnSettled
         (catch_ OnError
            (then_ OnData
               (then_ OnResponse
                  (fetch (endpoint k) formData (net env))
                  (fun response =>
                     if negb (ok response)
                     then throw (Error "Network response was not ok")
                     else json response))
               (on_data k env))
            (on_error k))
         (on_settled k) w0) =
  settled k
    (match delivered k env (emit (EFetch "POST" (endpoint k) formData) w0) with
     | (Ok _, w3) => w3
     | (Throw e, w3) => caught k e w3
     end).
Proof.
  unfold finally_, catch_, then_, fetch, delivered, mbind, modify, json, throw, ret.
  destruct (net env) as [|status body]; cbn [ok json_body negb].
  - now rewrite on_error_run, on_settled_run.
  - destruct (response_ok status); cbn [negb].
    + destruct body as [data|].
      * destruct (on_data k env data _) as [[[]|e] w3].
        -- now rewrite on_settled_run.
        -- now rewrite on_error_run, on_settled_run.
      * now rewrite on_error_run, on_settled_run.
    + now rewrite on_error_run, on_settled_run.
Qed.

Lemma submit_listener_run (k : form_id) (env : environment) (w : world) (f : form) :
  get_form k w = Some f ->
  snd (submit_listener k env w) =
  settled k
    (match delivered k env (request_sent k f w) with
     | (Ok _, w3) => w3
     | (Throw e, w3) => caught k e w3
     end).
Proof.
  intros Hf.
  unfold submit_listener, request_sent.
  unfold mbind at 1. unfold modify at 1.
  unfold mbind at 1. unfold get at 1.
  rewrite get_form_emit, Hf.
  unfold mbind at 1. unfold update_form at 1. unfold modify at 1.
  rewrite get_form_emit, Hf.
  unfold mbind at 1. unfold update_form at 1. unfold modify at 1.
  rewrite get_set_form, set_set_form.
  apply chain_run.
Qed.

Lemma trace_with_alert (t m : string) (w : world) :
  trace (with_alert t m w) = (trace w ++ alert_timer t m w)%list.
Proof.
  unfold with_alert, alert_timer.
  destruct (alerts_container w); simpl; [reflexivity | now rewrite app_nil_r].
Qed.

Lemma forms_with_alert (k : form_id) (t m : string) (w : world) :
  get_form k (with_alert t m w) = get_form k w.
Proof. unfold with_alert. destruct (alerts_container w), k; reflexivity. Qed.

Lemma results_with_alert (t m : string) (w : world) :
  jd_results (with_alert t m w) = jd_results w.
Proof. unfold with_alert. now destruct (alerts_container w). Qed.

Lemma alerts_with_alert (t m : string) (w : world) :
  alerts_container (with_alert t m w) =
  match alerts_container w with
  | Some c => Some (mkElement (classList c) (children c ++ [alert_node t m])%list)
  | None => None
  end.
Proof. unfold with_alert. now destruct (alerts_container w) eqn:E. Qed.

Lemma get_form_results (k : form_id) (c : option element) (w : world) :
  get_form k (set_jd_results c w) = get_form k w.
Proof. now destruct k. Qed.

Ltac effect_goal :=
  cbn [fst snd trace emit set_jd_results jd_results alerts_container
       is_ok negb andb];
  first
    [ reflexivity
    | discriminate
    | now rewrite trace_with_alert, ?app_nil_r, ?app_assoc
    | now (intros; rewrite ?get_form_emit, ?get_form_results;
           apply forms_with_alert)
    | now (intros; apply results_with_alert) ].

(** What the second [then] handler does to the page. *)
Lemma on_data_effect (k : form_id) (env : environment) (data : value) (w : world) :
  let r := on_data k env data w in
  is_ok (fst r) = negb (data_handler_throws k env (jd_results w) data)
  /\ trace (snd r) =
     (trace w ++ alert_timer "success" (success_message k) w
              ++ match k with JD => [] | CV => nav_events env data end)%list
  /\ (forall k', get_form k' (snd r) = get_form k' w)
  /\ alerts_container (snd r) =
     alerts_container (with_alert "success" (success_message k) w)
  /\ (k = CV -> jd_results (snd r) = jd_results w).
Proof.
  destruct k; cbn [on_data].
  - unfold jd_on_data, mbind, get, lift, ret, data_handler_throws.
    rewrite showAlert_run, results_with_alert.
    destruct (jd_results w) as [c|] eqn:Er; cbn [fst snd];
      [|repeat split; effect_goal].
    destruct (get_prop data "analysis") as [a|e]; cbn [fst snd];
      [|repeat split; effect_goal].
    destruct (truthy a); cbn [fst snd andb];
      [|repeat split; effect_goal].
    pose proof (populate_completion a c) as Pc.
    destruct (populateJdResults a (Some c)) as [r c']; cbn [fst snd] in *.
    rewrite Pc. repeat split; try effect_goal.
    now destruct (build_sections a).
  - unfold cv_on_data, set_location_href, mbind, get, lift, ret, modify, throw,
      data_handler_throws, nav_events.
    rewrite showAlert_run.
    destruct (get_prop data "redirect") as [rd|e]; cbn [fst snd];
      [|repeat split; effect_goal].
    destruct (truthy rd); cbn [fst snd andb];
      [|repeat split; effect_goal].
    destruct (ToString rd) as [href|e]; cbn [fst snd];
      [|repeat split; effect_goal].
    destruct (url_parses env href); repeat split; effect_goal.
Qed.

Lemma submit_run (k : form_id) (env : environment) (w : world) (f : form) :
  get_form k w = Some f ->
  submit k env w = settled k (responded k env (request_sent k f w)).
Proof.
  intros Hf. unfold submit, responded. rewrite Hf.
  now apply submit_listener_run.
Qed.

Lemma responded_failed (k : form_id) (env : environment) (w1 : world) :
  failed (net env) = true ->
  responded k env w1 = caught k (rejection (net env)) (after_response (net env) w1).
Proof.
  unfold responded, delivered, failed, rejection, after_response.
  destruct (net env) as [|status body]; [reflexivity|].
  destruct (response_ok status); [|reflexivity].
  destruct body; [discriminate | reflexivity].
Qed.

Lemma responded_data (k : form_id) (env : environment) (w1 : world)
    (status : Z) (data : value) :
  net env = Response status (Some data) ->
  response_ok status = true ->
  responded k env w1 =
  let r := on_data k env data
             (emit (EReaction OnData) (emit (EReaction OnResponse) w1)) in
  match fst r with
  | Ok _ => snd r
  | Throw e => caught k e (snd r)
  end.
Proof.
  intros Hn Hok. unfold responded, delivered. rewrite Hn, Hok.
  cbv zeta. now destruct (on_data k env data _) as [[|] ?].
Qed.

Lemma failed_or_data (r : fetch_result) :
  failed r = true \/
  exists status data, r = Response status (Some data) /\ response_ok status = true.
Proof.
  destruct r as [|status [data|]]; simpl; auto.
  - destruct (response_ok status) eqn:E; simpl; eauto.
  - now rewrite orb_true_r; left.
Qed.

Lemma trace_caught (k : form_id) (e : js_error) (w : world) :
  trace (caught k e w) =
  (trace w ++ [EReaction OnError; EConsoleError "Error:" e]
           ++ alert_timer "danger" (failure_message k) w)%list.
Proof.
  unfold caught. rewrite trace_with_alert. cbn [trace emit].
  unfold alert_timer. cbn [alerts_container emit].
  now rewrite <- !app_assoc.
Qed.

Lemma forms_caught (k k' : form_id) (e : js_error) (w : world) :
  get_form k' (caught k e w) = get_form k' w.
Proof. unfold caught. now rewrite forms_with_alert, !get_form_emit. Qed.

Lemma results_caught (k : form_id) (e : js_error) (w : world) :
  jd_results (caught k e w) = jd_results w.
Proof. unfold caught. now rewrite results_with_alert. Qed.

Lemma alerts_caught (k : form_id) (e : js_error) (w : world) :
  alerts_container (caught k e w) =
  alerts_container (with_alert "danger" (failure_message k) w).
Proof. unfold caught. now rewrite !alerts_with_alert. Qed.

Lemma trace_settled (k : form_id) (w : world) :
  trace (settled k w) = (trace w ++ [EReaction OnSettled])%list.
Proof.
  unfold settled. cbv zeta.
  destruct (get_form k (emit (EReaction OnSettled) w)); [now destruct k | reflexivity].
Qed.

Lemma alerts_settled (k : form_id) (w : world) :
  alerts_container (settled k w) = alerts_container w.
Proof.
  unfold settled. cbv zeta.
  destruct (get_form k (emit (EReaction OnSettled) w)); [now destruct k | reflexivity].
Qed.

Lemma results_settled (k : form_id) (w : world) :
  jd_results (settled k w) = jd_results w.
Proof.
  unfold settled. cbv zeta.
  destruct (get_form k (emit (EReaction OnSettled) w)); [now destruct k | reflexivity].
Qed.

Lemma trace_request_sent (k : form_id) (f : form) (w : world) :
  trace (request_sent k f w) =
  (trace w ++ [EPreventDefault; EFetch "POST" (endpoint k) (fields f)])%list.
Proof. unfold request_sent. destruct k; cbn; now rewrite <- app_assoc. Qed.

Lemma alerts_request_sent (k : form_id) (f : form) (w : world) :
  alerts_container (request_sent k f w) = alerts_container w.
Proof. now destruct k. Qed.

Lemma results_request_sent (k : form_id) (f : form) (w : world) :
  jd_results (request_sent k f w) = jd_results w.
Proof. now destruct k. Qed.


Lemma alerts_after_response (r : fetch_result) (w : world) :
  alerts_container (after_response r w) = alerts_container w.
Proof. now destruct r. Qed.

Lemma results_after_response (r : fetch_result) (w : world) :
  jd_results (after_response r w) = jd_results w.
Proof. now destruct r. Qed.

Lemma forms_after_response (k : form_id) (r : fetch_result) (w : world) :
  get_form k (after_response r w) = get_form k w.
Proof. destruct r; [reflexivity | apply get_form_emit]. Qed.

Lemma forms_responded (k k' : form_id) (env : environment) (w1 : world) :
  get_form k' (responded k env w1) = get_form k' w1.
Proof.
  destruct (failed_or_data (net env)) as [F | (status & data & Hn & Hok)].
  - rewrite (responded_failed k env w1 F).
    now rewrite forms_caught, forms_after_response.
  - rewrite (responded_data k env w1 status data Hn Hok). cbv zeta.
    destruct (on_data_effect k env data
                (emit (EReaction OnData) (emit (EReaction OnResponse) w1)))
      as (_ & _ & Hforms & _).
    destruct (fst (on_data k env data _)).
    + now rewrite Hforms, !get_form_emit.
    + now rewrite forms_caught, Hforms, !get_form_emit.
Qed.

Lemma has_class_add (c : string) (l : list string) :
  has_class c (classList_add c l) = true.
Proof.
  unfold classList_add. destruct (has_class c l) eqn:E; [assumption|].
  unfold has_class. rewrite existsb_app. simpl. rewrite String.eqb_refl.
  now rewrite orb_true_r.
Qed.

Lemma times_app (r : reaction) (w w' : world) (evs : list event) :
  trace w' = (trace w ++ evs)%list ->
  times r w' = (times r w + List.length (filter (event_eqb_reaction r) evs))%nat.
Proof.
  intros E. unfold times. now rewrite E, filter_app, length_app.
Qed.

Lemma times_emit (r : reaction) (e : event) (w : world) :
  times r (emit e w) =
  (times r w + if event_eqb_reaction r e then 1 else 0)%nat.
Proof.
  rewrite (times_app r w (emit e w) [e]) by reflexivity.
  cbn. now destruct (event_eqb_reaction r e).
Qed.

Lemma no_reaction_in_timer (r : reaction) (t m : string) (w : world) :
  filter (event_eqb_reaction r) (alert_timer t m w) = [].
Proof. unfold alert_timer. now destruct (alerts_container w), r. Qed.

Lemma no_reaction_in_nav (r : reaction) (env : environment) (data : value) :
  filter (event_eqb_reaction r) (nav_events env data) = [].
Proof.
  unfold nav_events.
  destruct (get_prop data "redirect") as [v|]; [|reflexivity].
  destruct (truthy v); [|reflexivity].
  destruct (ToString v) as [h|]; [|reflexivity].
  destruct (url_parses env h); [now destruct r | reflexivity].
Qed.

Lemma times_caught (r : reaction) (k : form_id) (e : js_error) (w : world) :
  times r (caught k e w) = (times r w + occurrences r [OnError])%nat.
Proof.
  rewrite (times_app r w _ _ (trace_caught k e w)).
  rewrite filter_app, length_app, no_reaction_in_timer.
  now destruct r.
Qed.

Lemma times_on_data (r : reaction) (k : form_id) (env : environment)
    (data : value) (w : world) :
  times r (snd (on_data k env data w)) = times r w.
Proof.
  destruct (on_data_effect k env data w) as (_ & T & _).
  rewrite (times_app r w _ _ T).
  rewrite filter_app, length_app, no_reaction_in_timer.
  destruct k; [cbn; lia|].
  rewrite no_reaction_in_nav. cbn. lia.
Qed.

Lemma results_emit (e : event) (w : world) : jd_results (emit e w) = jd_results w.
Proof. reflexivity. Qed.

Lemma times_responded (r : reaction) (k : form_id) (env : environment) (w1 : world) :
  times r (responded k env w1) =
  (times r w1 + occurrences r (reactions_run k env (jd_results w1)))%nat.
Proof.
  unfold reactions_run.
  destruct (failed_or_data (net env)) as [F | (status & data & Hn & Hok)].
  - rewrite (responded_failed k env w1 F), times_caught.
    unfold after_response, failed in *.
    destruct (net env) as [|status body].
    + reflexivity.
    + rewrite times_emit.
      destruct (response_ok status); [destruct body; [discriminate|]|];
        destruct r; cbn; lia.
  - rewrite (responded_data k env w1 status data Hn Hok). cbv zeta.
    rewrite Hn, Hok.
    destruct (on_data_effect k env data
                (emit (EReaction OnData) (emit (EReaction OnResponse) w1)))
      as (Hc & _).
    rewrite !results_emit in Hc.
    pose proof (times_on_data r k env data
                  (emit (EReaction OnData) (emit (EReaction OnResponse) w1))) as Ht.
    rewrite !times_emit in Ht.
    destruct (fst (on_data k env data _)); cbn [is_ok] in Hc;
      destruct (data_handler_throws k env (jd_results w1) data);
      try discriminate.
    + rewrite Ht. destruct r; cbn; lia.
    + rewrite times_caught, Ht. destruct r; cbn; lia.
Qed.

Lemma times_submit (r : reaction) (k : form_id) (env : environment)
    (w : world) (f : form) :
  get_form k w = Some f ->
  times r (submit k env w) =
  (times r w
   + occurrences r (reactions_run k env (jd_results w) ++ [OnSettled]))%nat.
Proof.
  intros Hf. rewrite (submit_run k env w f Hf).
  rewrite (times_app r _ _ _ (trace_settled k _)).
  rewrite times_responded, results_request_sent.
  rewrite (times_app r _ _ _ (trace_request_sent k f w)).
  unfold occurrences. rewrite filter_app, length_app.
  destruct r; cbn; lia.
Qed.


Lemma alert_timer_same (t m : string) (w w' : world) :
  (alerts_container w' = None <-> alerts_container w = None) ->
  alert_timer t m w' = alert_timer t m w.
Proof.
  unfold alert_timer. intros [H1 H2].
  destruct (alerts_container w'), (alerts_container w); try reflexivity.
  - now specialize (H2 eq_refl).
  - now specialize (H1 eq_refl).
Qed.

Lemma alerts_presence_with_alert (t m : string) (w : world) :
  alerts_container (with_alert t m w) = None <-> alerts_container w = None.
Proof.
  rewrite alerts_with_alert. destruct (alerts_container w); split; congruence.
Qed.

(** The events of a failed upload. *)
Lemma trace_submit_failed (k : form_id) (env : environment) (w : world) (f : form) :
  get_form k w = Some f ->
  failed (net env) = true ->
  trace (submit k env w) =
  (trace w ++ [EPreventDefault; EFetch "POST" (endpoint k) (fields f)]
     ++ match net env with
        | NetworkFailure => []
        | Response _ _ => [EReaction OnResponse]
        end
     ++ [EReaction OnError; EConsoleError "Error:" (rejection (net env))]
     ++ alert_timer "danger" (failure_message k) w
     ++ [EReaction OnSettled])%list.
Proof.
  intros Hf F. rewrite (submit_run k env w f Hf), trace_settled.
  rewrite (responded_failed k env _ F), trace_caught.
  rewrite (alert_timer_same _ _ w).
  2:{ now rewrite alerts_after_response, alerts_request_sent. }
  assert (T : trace (after_response (net env) (request_sent k f w)) =
              (trace (request_sent k f w) ++
               match net env with
               | NetworkFailure => []
               | Response _ _ => [EReaction OnResponse]
               end)%list).
  { destruct (net env); cbn [after_response]; [now rewrite app_nil_r | reflexivity]. }
  rewrite T, trace_request_sent.
  now rewrite <- !app_assoc.
Qed.

(** The events of an upload whose response is 2xx with a JSON body. *)
Lemma trace_submit_data (k : form_id) (env : environment) (w : world) (f : form)
    (status : Z) (data : value) :
  get_form k w = Some f ->
  net env = Response status (Some data) ->
  response_ok status = true ->
  exists tail,
    trace (submit k env w) =
    (trace w ++ [EPreventDefault; EFetch "POST" (endpoint k) (fields f);
                 EReaction OnResponse; EReaction OnData]
       ++ alert_timer "success" (success_message k) w
       ++ match k with JD => [] | CV => nav_events env data end
       ++ tail ++ [EReaction OnSettled])%list
    /\ (tail = [] \/
        exists e, tail = ([EReaction OnError; EConsoleError "Error:" e]
                            ++ alert_timer "danger" (failure_message k) w)%list).
Proof.
  intros Hf Hn Hok. rewrite (submit_run k env w f Hf), trace_settled.
  rewrite (responded_data k env _ status data Hn Hok). cbv zeta.
  set (w2 := emit (EReaction OnData)
               (emit (EReaction OnResponse) (request_sent k f w))).
  destruct (on_data_effect k env data w2) as (_ & T & _ & A & _).
  assert (T2 : trace w2 =
               (trace w ++ [EPreventDefault; EFetch "POST" (endpoint k) (fields f);
                            EReaction OnResponse; EReaction OnData])%list).
  { unfold w2. cbn [trace emit]. rewrite trace_request_sent.
    now rewrite <- !app_assoc. }
  assert (P2 : alerts_container w2 = alerts_container w)
    by (unfold w2; cbn [alerts_container emit]; apply alerts_request_sent).
  rewrite (alert_timer_same _ _ w w2) in T by now rewrite P2.
  destruct (fst (on_data k env data w2)) as [u|e].
  - exists []. split; [|now left].
    rewrite T, T2. now rewrite <- !app_assoc.
  - exists ([EReaction OnError; EConsoleError "Error:" e]
              ++ alert_timer "danger" (failure_message k) w)%list.
    split; [|right; now exists e].
    rewrite trace_caught, T, T2.
    rewrite (alert_timer_same _ _ w (snd (on_data k env data w2))).
    2:{ rewrite A, alerts_presence_with_alert. now rewrite P2. }
    now rewrite <- !app_assoc.
Qed.

Lemma observe_app {A} (g : event -> list A) (w w' : world) (evs : list event) :
  trace w' = (trace w ++ evs)%list ->
  flat_map g (trace w') = (flat_map g (trace w) ++ flat_map g evs)%list.
Proof. intros ->. apply flat_map_app. Qed.

Lemma flat_map_timer {A} (g : event -> list A) (t m : string) (w : world) :
  (forall ms n, g (ESetTimeout ms n) = []) ->
  flat_map g (alert_timer t m w) = [].
Proof.
  intros H. unfold alert_timer. destruct (alerts_container w); [|reflexivity].
  cbn. now rewrite H.
Qed.

(** C2 fails as stated: a response with status 200 whose body is not
    JSON does not reach the success branch. *)
Lemma status_200_without_json_fails :
  ~ branch_by_status JD (mkEnv (Response 200 None) lenient_parser) example_page.
Proof.
  unfold branch_by_status. cbn [net]. vm_compute. intros [H _]. discriminate H.
Qed.

Example status_200_runs_both_branches :
  let w' := submit CV (mkEnv (Response 200 (Some VNull)) lenient_parser) example_page in
  times OnData w' = 1%nat /\ times OnError w' = 1%nat.
Proof. vm_compute. split; reflexivity. Qed.

(** C2, as amended. A submission runs at least one of the two branches.
    A network failure, a status outside 200..299 or a body that is not
    JSON runs the failure branch once and the success branch not at all.
    A status in 200..299 with a JSON body runs the success branch once,
    and the failure branch once more exactly when the success handler
    throws. *)
Theorem branches_of_a_submission (k : form_id) (env : environment)
    (w : world) (f : form) :
  get_form k w = Some f ->
  let w' := submit k env w in
  (failed (net env) = true ->
     times OnData w' = times OnData w /\ times OnError w' = S (times OnError w))
  /\ (forall status data,
        net env = Response status (Some data) -> response_ok status = true ->
        times OnData w' = S (times OnData w)
        /\ times OnError w' =
           (times OnError w +
            if is_ok (fst (on_data k env data (data_arrived k f w)))
            then 0 else 1)%nat)
  /\ (times OnData w + times OnError w < times OnData w' + times OnError w')%nat.
Proof.
  intros Hf w'. unfold w'.
  rewrite !(times_submit _ k env w f Hf).
  unfold reactions_run, failed.
  split; [|split].
  - intros F. destruct (net env) as [|status body]; [cbn; lia|].
    destruct (response_ok status); [|cbn; lia].
    destruct body; [discriminate | cbn; lia].
  - intros status data E Hok. rewrite E, Hok.
    destruct (on_data_effect k env data (data_arrived k f w)) as (C & _).
    unfold data_arrived in C at 2. rewrite !results_emit, results_request_sent in C.
    rewrite C.
    destruct (data_handler_throws k env (jd_results w) data); cbn; lia.
  - destruct (net env) as [|status body]; [cbn; lia|].
    destruct (response_ok status); [|cbn; lia].
    destruct body as [data|]; [|cbn; lia].
    destruct (data_handler_throws k env (jd_results w) data); cbn; lia.
Qed.

(** C4 fails as stated: on a page without the notification area a
    failed upload shows no notification. *)
Lemma failure_without_area_shows_nothing :
  failed NetworkFailure = true /\
  ~ shows_one_danger JD page_without_alerts
      (submit JD (mkEnv NetworkFailure lenient_parser) page_without_alerts).
Proof.
  split; [reflexivity|].
  unfold shows_one_danger. vm_compute. discriminate.
Qed.

(** C4, as amended. Every failed upload (no response, a status outside
    200..299, a body that is not JSON) is handled the same way: the
    failure branch runs once and the success branch not at all, the error
    is logged once, the request stays the only one, nothing is navigated
    or rendered, and the notification area, when the page has one, gains
    exactly the danger notification with the fixed text; without a
    notification area none is shown. *)
Theorem failure_handled_uniformly (k : form_id) (env : environment)
    (w : world) (f : form) :
  get_form k w = Some f ->
  failed (net env) = true ->
  let w' := submit k env w in
  times OnError w' = S (times OnError w)
  /\ times OnData w' = times OnData w
  /\ console_errors w' = (console_errors w ++ [rejection (net env)])%list
  /\ requests w' = (requests w ++ [endpoint k])%list
  /\ notifications w' =
     match alerts_container w with
     | Some c => (children c ++ [alert_node "danger" (failure_message k)])%list
     | None => []
     end
  /\ navigations w' = navigations w
  /\ jd_results w' = jd_results w.
Proof.
  intros Hf F w'.
  assert (Be : times OnError (submit k env w) = S (times OnError w)
               /\ times OnData (submit k env w) = times OnData w).
  { rewrite !(times_submit _ k env w f Hf).
    unfold reactions_run, failed in *.
    destruct (net env) as [|status body]; [cbn; lia|].
    destruct (response_ok status); [|cbn; lia].
    destruct body; [discriminate | cbn; lia]. }
  destruct Be as [Be Bd].
  pose proof (trace_submit_failed k env w f Hf F) as T.
  assert (R : match net env with
              | NetworkFailure => []
              | Response _ _ => [EReaction OnResponse]
              end = [] \/
              match net env with
              | NetworkFailure => []
              | Response _ _ => [EReaction OnResponse]
              end = [EReaction OnResponse])
    by (destruct (net env); auto).
  repeat split; try assumption.
  - unfold console_errors. rewrite (observe_app _ _ _ _ T).
    rewrite !flat_map_app, flat_map_timer by reflexivity.
    destruct R as [-> | ->]; reflexivity.
  - unfold requests. rewrite (observe_app _ _ _ _ T).
    rewrite !flat_map_app, flat_map_timer by reflexivity.
    destruct R as [-> | ->]; reflexivity.
  - unfold notifications, w'. rewrite (submit_run k env w f Hf), alerts_settled.
    rewrite (responded_failed k env _ F), alerts_caught, alerts_with_alert.
    rewrite alerts_after_response, alerts_request_sent.
    now destruct (alerts_container w).
  - unfold navigations. rewrite (observe_app _ _ _ _ T).
    rewrite !flat_map_app, flat_map_timer by reflexivity.
    destruct R as [-> | ->]; cbn; now rewrite app_nil_r.
  - unfold w'. rewrite (submit_run k env w f Hf), results_settled.
    rewrite (responded_failed k env _ F), results_caught.
    now rewrite results_after_response, results_request_sent.
Qed.

(** C7 fails as stated: a success response that contains a redirect
    field holding the empty string starts no navigation. *)
Lemma empty_redirect_not_followed :
  let data := VObj [("redirect", VStr "")] in
  get_prop data "redirect" = Ok (VStr "") /\
  navigations
    (submit CV (mkEnv (Response 200 (Some data)) lenient_parser) example_page) = [].
Proof. vm_compute. split; reflexivity. Qed.

(** C7, as amended. On a resume upload answered with a 2xx status and a
    JSON body the results container is never touched; a redirect that is a
    non-empty string accepted by the URL parser is navigated to exactly
    once; an absent or falsy redirect starts no navigation. *)
Theorem redirect_followed (env : environment) (w : world) (f : form)
    (status : Z) (data : value) :
  get_form CV w = Some f ->
  net env = Response status (Some data) ->
  response_ok status = true ->
  let w' := submit CV env w in
  jd_results w' = jd_results w
  /\ (forall s, get_prop data "redirect" = Ok (VStr s) -> s <> "" ->
        url_parses env s = true ->
        navigations w' = (navigations w ++ [s])%list)
  /\ (forall v, get_prop data "redirect" = Ok v -> truthy v = false ->
        navigations w' = navigations w).
Proof.
  intros Hf Hn Hok w'.
  assert (N : navigations w' =
              (navigations w ++
               flat_map (fun e => match e with ENavigate h => [h] | _ => [] end)
                        (nav_events env data))%list).
  { destruct (trace_submit_data CV env w f status data Hf Hn Hok)
      as (tail & T & Htail).
    unfold navigations, w'. rewrite (observe_app _ _ _ _ T).
    rewrite !flat_map_app, flat_map_timer by reflexivity.
    assert (Z : flat_map (fun e => match e with ENavigate h => [h] | _ => [] end)
                         tail = []).
    { destruct Htail as [-> | [e ->]]; [reflexivity|].
      rewrite flat_map_app, flat_map_timer by reflexivity. reflexivity. }
    rewrite Z. cbn. now rewrite app_nil_r. }
  split; [|split].
  - unfold w'. rewrite (submit_run CV env w f Hf), results_settled.
    rewrite (responded_data CV env _ status data Hn Hok). cbv zeta.
    destruct (on_data_effect CV env data
                (emit (EReaction OnData)
                   (emit (EReaction OnResponse) (request_sent CV f w))))
      as (_ & _ & _ & _ & R).
    destruct (fst (on_data CV env data _)).
    + now rewrite R.
    + now rewrite results_caught, R.
  - intros s G Hs Hu. rewrite N. unfold nav_events. rewrite G.
    cbn [truthy ToString]. apply String.eqb_neq in Hs. rewrite Hs.
    cbn [negb]. now rewrite Hu.
  - intros v G Hv. rewrite N. unfold nav_events. rewrite G, Hv.
    cbn. now rewrite app_nil_r.
Qed.

(** C9. On a page without the notification area [showAlert] returns
    normally and leaves the page as it was: nothing is inserted and no
    timer is set. A submission on such a page therefore shows no
    notification and sets no timer. *)
Theorem alert_dropped_without_area (type message : string) (w : world) :
  alerts_container w = None ->
  showAlert type message w = (Ok tt, w)
  /\ forall k env,
       alerts_container (submit k env w) = None
       /\ timers (submit k env w) = timers w.
Proof.
  intros Ha. split.
  - rewrite showAlert_run. unfold with_alert. now rewrite Ha.
  - intros k env.
    destruct (get_form k w) as [f|] eqn:Hf;
      [|unfold submit; rewrite Hf; now split].
    assert (Z : forall t m, alert_timer t m w = [])
      by (intros; unfold alert_timer; now rewrite Ha).
    destruct (failed_or_data (net env)) as [F | (status & data & Hn & Hok)].
    + split.
      * rewrite (submit_run k env w f Hf), alerts_settled.
        rewrite (responded_failed k env _ F), alerts_caught, alerts_with_alert.
        now rewrite alerts_after_response, alerts_request_sent, Ha.
      * pose proof (trace_submit_failed k env w f Hf F) as T.
        unfold timers. rewrite (observe_app _ _ _ _ T), Z.
        destruct (net env); cbn; now rewrite app_nil_r.
    + split.
      * rewrite (submit_run k env w f Hf), alerts_settled.
        rewrite (responded_data k env _ status data Hn Hok). cbv zeta.
        destruct (on_data_effect k env data
                    (emit (EReaction OnData)
                       (emit (EReaction OnResponse) (request_sent k f w))))
          as (_ & _ & _ & A & _).
        rewrite alerts_with_alert in A. cbn [alerts_container emit] in A.
        rewrite alerts_request_sent, Ha in A.
        destruct (fst (on_data k env data _)); [assumption|].
        now rewrite alerts_caught, alerts_with_alert, A.
      * destruct (trace_submit_data k env w f status data Hf Hn Hok)
          as (tail & T & Htail).
        unfold timers. rewrite (observe_app _ _ _ _ T), !Z.
        assert (Nv : flat_map (fun e => match e with
                                        | ESetTimeout ms _ => [ms]
                                        | _ => []
                                        end)
                       match k with JD => [] | CV => nav_events env data end = []).
        { destruct k; [reflexivity|]. unfold nav_events.
          destruct (get_prop data "redirect") as [v|]; [|reflexivity].
          destruct (truthy v); [|reflexivity].
          destruct (ToString v) as [h|]; [|reflexivity].
          now destruct (url_parses env h). }
        rewrite !flat_map_app, Nv.
        destruct Htail as [-> | [e ->]]; rewrite ?flat_map_app, ?Z; cbn;
          now rewrite app_nil_r.
Qed.

End Coordinator.


(** ** The statements at concrete pages *)

Section Instances.

Example ToString_array :
  ToString (VArr [VNum 1 "1"; VNull; VArr [VStr "a"; VBool true]]) = Ok "1,,a,true".
Proof. reflexivity. Qed.

Example ToString_own_toString :
  is_ok (ToString (VObj [("toString", VNum 1 "1")])) = false.
Proof. reflexivity. Qed.

Example string_field_throws :
  createAnalysisSection "Required Skills" (VStr "Go, Rust") =
  Throw (TypeError "items.forEach is not a function").
Proof. reflexivity. Qed.


Example job_description_uploaded :
  let data := VObj [("analysis", VObj [("skills", VArr [VStr "Go"; VStr "Rust"])])] in
  let w' := submit JD (mkEnv (Response 201 (Some data)) lenient_parser) example_page in
  requests w' = ["/api/job-description"]
  /\ console_errors w' = []
  /\ timers w' = [5000%Z]
  /\ option_map classList (jd_results w') = Some ["fade-in"]
  /\ List.length (contents (jd_results w')) = 4%nat
  /\ option_map busy (jdForm w') = Some false.
Proof. vm_compute. repeat split; reflexivity. Qed.

Example null_payload_without_results_container :
  let w := mkWorld (Some example_form) None None None [] in
  let w' := submit JD (mkEnv (Response 200 (Some VNull)) lenient_parser) w in
  times OnData w' = 1%nat /\ times OnError w' = 0%nat.
Proof. vm_compute. split; reflexivity. Qed.

Lemma second_render_replaces_first_witness :
  contents
    (snd (populateJdResults (VObj [("skills", VArr [VStr "Go"])])
            (snd (populateJdResults (VObj [("skills", VArr [VStr "Rust"; VStr "C"])])
                    (Some (mkElement ["d-none"] [Markup "<p>old</p>"])))))) =
  [list_section "Required Skills" ["Go"];
   placeholder_section "Experience Requirements";
   placeholder_section "Qualifications";
   placeholder_section "Responsibilities"].
Proof.
  destruct (second_render_replaces_first
              (VObj [("skills", VArr [VStr "Rust"; VStr "C"])])
              (VObj [("skills", VArr [VStr "Go"])])
              (mkElement ["d-none"] [Markup "<p>old</p>"])) as (_ & H & _).
  apply (H (VArr [VStr "Go"]) VUndefined VUndefined VUndefined);
    reflexivity.
Defined.

Lemma well_formed_fields_render_witness :
  let a := VObj [("skills", VArr [VStr "Go"]); ("experience", VNull);
                 ("qualifications", VStr "")] in
  fst (populateJdResults a (Some (mkElement ["d-none"] []))) = Ok tt.
Proof.
  apply (well_formed_fields_render
           (VObj [("skills", VArr [VStr "Go"]); ("experience", VNull);
                  ("qualifications", VStr "")])
           (mkElement ["d-none"] [])).
  intros k t H. simpl in H.
  destruct H as [H|[H|[H|[H|[]]]]]; injection H as <- <-;
    eexists; split; reflexivity.
Defined.

Lemma go_rust_sections_witness :
  let a := VObj [("title", VStr "Engineer");
                 ("skills", VArr [VStr "Go"; VStr "Rust"])] in
  let r := populateJdResults a (Some (mkElement ["d-none"] [Markup "<p>old</p>"])) in
  fst r = Ok tt /\ List.length (contents (snd r)) = 4%nat.
Proof.
  cbv zeta.
  rewrite (go_rust_sections
             (VObj [("title", VStr "Engineer");
                    ("skills", VArr [VStr "Go"; VStr "Rust"])])
             (mkElement ["d-none"] [Markup "<p>old</p>"])
             eq_refl eq_refl eq_refl eq_refl).
  split; reflexivity.
Defined.


Lemma branches_of_a_submission_witness :
  get_form JD example_page = Some example_form /\
  (times OnData example_page + times OnError example_page <
   times OnData (submit JD (mkEnv (Response 404 None) lenient_parser) example_page)
   + times OnError (submit JD (mkEnv (Response 404 None) lenient_parser) example_page))%nat.
Proof.
  split; [reflexivity|].
  destruct (branches_of_a_submission JD (mkEnv (Response 404 None) lenient_parser)
              example_page example_form eq_refl) as (_ & _ & H).
  exact H.
Defined.

Lemma failure_handled_uniformly_witness :
  get_form JD example_page = Some example_form /\
  failed NetworkFailure = true /\
  notifications (submit JD (mkEnv NetworkFailure lenient_parser) example_page) =
  [alert_node "danger" "Failed to upload job description. Please try again."].
Proof.
  split; [reflexivity|]. split; [reflexivity|].
  destruct (failure_handled_uniformly JD (mkEnv NetworkFailure lenient_parser)
              example_page example_form eq_refl eq_refl)
    as (_ & _ & _ & _ & H & _).
  exact H.
Defined.

Lemma redirect_followed_witness :
  let env := mkEnv (Response 200 (Some (VObj [("redirect", VStr "/dashboard")])))
                   lenient_parser in
  get_form CV example_page = Some example_form /\
  navigations (submit CV env example_page) = ["/dashboard"].
Proof.
  cbv zeta. split; [reflexivity|].
  destruct (redirect_followed
              (mkEnv (Response 200 (Some (VObj [("redirect", VStr "/dashboard")])))
                     lenient_parser)
              example_page example_form 200
              (VObj [("redirect", VStr "/dashboard")])
              eq_refl eq_refl eq_refl) as (_ & H & _).
  apply (H "/dashboard"); [reflexivity | discriminate | reflexivity].
Defined.

Lemma alert_dropped_without_area_witness :
  alerts_container page_without_alerts = None /\
  showAlert "danger" "Failed to upload resume. Please try again."
            page_without_alerts = (Ok tt, page_without_alerts).
Proof.
  split; [reflexivity|].
  apply (alert_dropped_without_area
           "danger" "Failed to upload resume. Please try again."
           page_without_alerts eq_refl).
Defined.

End Instances.

(** ** Further properties *)

(** ** The candidate scores chart: proofs *)

Section ChartProofs.

Import Charts.

Lemma score_of_inv (item : value) (q : Q) :
  score_of item = Some q -> exists t, get_prop item "score" = Ok (VNum q t).
Proof.
  unfold score_of. destruct (get_prop item "score") as [[]|]; try discriminate.
  intros E. injection E as ->. eauto.
Qed.

Lemma well_scored_inv (item : value) :
  well_scored item = true -> exists q, score_of item = Some q.
Proof.
  unfold well_scored. destruct (score_of item) as [q|]; [eauto | discriminate].
Qed.

Lemma scored_property (key : string) (item : value) :
  well_scored item = true -> get_prop item key = Ok (property key item).
Proof.
  intros W. destruct (well_scored_inv item W) as [q Hq].
  destruct (score_of_inv item q Hq) as [t Ht].
  unfold property. destruct item; try discriminate; cbn in *;
    try reflexivity.
  now destruct (own_prop props key).
Qed.

Lemma scored_is_defined (item : value) :
  well_scored item = true -> is_undefined item = false.
Proof. destruct item; try reflexivity. discriminate. Qed.

Lemma compare_scored (StringToNumber : string -> number) (a b : value) (qa qb : Q) :
  score_of a = Some qa -> score_of b = Some qb ->
  by_score_descending StringToNumber a b = Ok (Finite (qb - qa)).
Proof.
  intros Ha Hb.
  destruct (score_of_inv a qa Ha) as [ta Ea].
  destruct (score_of_inv b qb Hb) as [tb Eb].
  unfold by_score_descending. now rewrite Ea, Eb.
Qed.

Lemma stands_before_iff (x y : value) :
  well_scored x = true -> well_scored y = true ->
  stands_before x y = true <-> not_below x y.
Proof.
  intros Wx Wy.
  destruct (well_scored_inv x Wx) as [qx Hx].
  destruct (well_scored_inv y Wy) as [qy Hy].
  unfold stands_before, not_below. rewrite Hx, Hy, Qle_bool_iff.
  split; intros; lra.
Qed.

Lemma insert_scored_perm (x : value) (l : list value) :
  Permutation (insert_scored x l) (x :: l).
Proof.
  induction l as [|y l IH]; simpl; [reflexivity|].
  destruct (stands_before x y); [reflexivity|].
  rewrite IH. apply perm_swap.
Qed.

Lemma sort_scored_perm (l : list value) : Permutation (sort_scored l) l.
Proof.
  induction l as [|x l IH]; simpl; [reflexivity|].
  rewrite insert_scored_perm. now constructor.
Qed.

Lemma sort_scored_well (l : list value) :
  Forall (fun i => well_scored i = true) l ->
  Forall (fun i => well_scored i = true) (sort_scored l).
Proof.
  intros H. exact (Permutation_Forall (Permutation_sym (sort_scored_perm l)) H).
Qed.

(** On scored items the engine's sort is the insertion by score. *)
Lemma sort_insert_scored (StringToNumber : string -> number) (x : value) (l : list value) :
  well_scored x = true ->
  Forall (fun i => well_scored i = true) l ->
  sort_insert (by_score_descending StringToNumber) x l = Ok (insert_scored x l).
Proof.
  intros Wx. induction 1 as [|y l Wy _ IH]; [reflexivity|].
  destruct (well_scored_inv x Wx) as [qx Hx].
  destruct (well_scored_inv y Wy) as [qy Hy].
  cbn [sort_insert insert_scored].
  rewrite (compare_scored StringToNumber x y qx qy Hx Hy). cbn [JS.bind keeps_in_front].
  unfold stands_before. rewrite Hx, Hy.
  destruct (Qle_bool (qy - qx) 0); [reflexivity|].
  now rewrite IH.
Qed.

Lemma sort_defined_scored (StringToNumber : string -> number) (l : list value) :
  Forall (fun i => well_scored i = true) l ->
  sort_defined (by_score_descending StringToNumber) l = Ok (sort_scored l).
Proof.
  induction 1 as [|x l Wx Wl IH]; [reflexivity|].
  cbn [sort_defined sort_scored]. rewrite IH. cbn [JS.bind].
  apply sort_insert_scored; [assumption | now apply sort_scored_well].
Qed.

Lemma Array_sort_scored (StringToNumber : string -> number) (l : list value) :
  Forall (fun i => well_scored i = true) l ->
  Array_sort (by_score_descending StringToNumber) l = Ok (sort_scored l).
Proof.
  intros W. unfold Array_sort.
  assert (D : filter (fun v => negb (is_undefined v)) l = l
              /\ filter is_undefined l = []).
  { induction W as [|x l Wx _ [IH1 IH2]]; [now split|].
    cbn [filter]. rewrite (scored_is_defined x Wx). cbn [negb].
    now rewrite IH1, IH2. }
  destruct D as [-> ->].
  rewrite (sort_defined_scored StringToNumber l W). cbn [JS.bind]. now rewrite app_nil_r.
Qed.

Lemma Array_map_total {A} (f : value -> outcome A) (g : value -> A)
    (l : list value) :
  Forall (fun x => f x = Ok (g x)) l -> Array_map f l = Ok (map g l).
Proof.
  induction 1 as [|x l Hx _ IH]; [reflexivity|].
  cbn [Array_map map]. now rewrite Hx, IH.
Qed.

Lemma colour_of_scored (StringToNumber : string -> number) (green yellow red : string) (item : value) :
  well_scored item = true ->
  colour_of StringToNumber green yellow red item =
  Ok (band_colour green yellow red item).
Proof.
  intros W. destruct (well_scored_inv item W) as [q Hq].
  destruct (score_of_inv item q Hq) as [t Ht].
  unfold colour_of, band_colour. rewrite Hq, Ht.
  cbn [JS.bind ToNumber at_least].
  destruct (Qle_bool 75 q); [reflexivity|].
  now destruct (Qle_bool 50 q).
Qed.

(** The chart of a payload of scored items. *)
Lemma chart_of_scored (StringToNumber : string -> number) (items : list value) :
  Forall (fun i => well_scored i = true) items ->
  createCandidateScoresChart StringToNumber (VArr items) =
  Ok (mkBarChart
        (map (property "name") (sort_scored items))
        "Match Score (%)"
        (map (property "score") (sort_scored items))
        (map (band_colour "rgba(40, 167, 69, 0.7)" "rgba(255, 193, 7, 0.7)"
                          "rgba(220, 53, 69, 0.7)") (sort_scored items))
        (map (band_colour "rgb(40, 167, 69)" "rgb(255, 193, 7)"
                          "rgb(220, 53, 69)") (sort_scored items))
        1).
Proof.
  intros W. pose proof (sort_scored_well items W) as WS.
  unfold createCandidateScoresChart.
  rewrite (Array_sort_scored StringToNumber items W). cbn [JS.bind].
  rewrite (Array_map_total _ (property "name")).
  2:{ eapply Forall_impl; [|exact WS]. intros x Wx. now apply scored_property. }
  cbn [JS.bind].
  rewrite (Array_map_total _ (property "score")).
  2:{ eapply Forall_impl; [|exact WS]. intros x Wx. now apply scored_property. }
  cbn [JS.bind]. unfold background_of, border_of.
  rewrite (Array_map_total _ (band_colour "rgba(40, 167, 69, 0.7)"
                                "rgba(255, 193, 7, 0.7)" "rgba(220, 53, 69, 0.7)")).
  2:{ eapply Forall_impl; [|exact WS]. intros x Wx. now apply colour_of_scored. }
  cbn [JS.bind].
  rewrite (Array_map_total _ (band_colour "rgb(40, 167, 69)"
                                "rgb(255, 193, 7)" "rgb(220, 53, 69)")).
  2:{ eapply Forall_impl; [|exact WS]. intros x Wx. now apply colour_of_scored. }
  reflexivity.
Qed.

Lemma insert_scored_sorted (x : value) (l : list value) :
  well_scored x = true ->
  Forall (fun i => well_scored i = true) l ->
  StronglySorted not_below l ->
  StronglySorted not_below (insert_scored x l).
Proof.
  intros Wx W S. revert W.
  induction S as [|y l Hl IH Hy]; intros W; simpl.
  - repeat constructor.
  - inversion W as [|? ? Wy Wl]; subst.
    destruct (well_scored_inv x Wx) as [qx Hx].
    destruct (well_scored_inv y Wy) as [qy Hqy].
    destruct (stands_before x y) eqn:E.
    + apply (stands_before_iff x y Wx Wy) in E.
      constructor; [now constructor|].
      constructor; [exact E|].
      rewrite Forall_forall in Hy, Wl. apply Forall_forall. intros z Hz.
      specialize (Hy z Hz). specialize (Wl z Hz).
      destruct (well_scored_inv z Wl) as [qz Hqz].
      unfold not_below in *. rewrite Hx, Hqy, Hqz in *. lra.
    + constructor; [now apply IH|].
      apply (Permutation_Forall (Permutation_sym (insert_scored_perm x l))).
      constructor; [|assumption].
      assert (N : ~ not_below x y).
      { intros C. apply (stands_before_iff x y Wx Wy) in C. congruence. }
      unfold not_below in *. rewrite Hx, Hqy in *. lra.
Qed.

Lemma sort_scored_sorted (l : list value) :
  Forall (fun i => well_scored i = true) l ->
  StronglySorted not_below (sort_scored l).
Proof.
  induction 1 as [|x l Wx Wl IH]; simpl; [constructor|].
  apply insert_scored_sorted; [assumption | now apply sort_scored_well | assumption].
Qed.

Lemma numbers_of_scores (l : list value) :
  Forall (fun i => well_scored i = true) l ->
  numbers (map (property "score") l) = map score_or_zero l.
Proof.
  induction 1 as [|x l Wx _ IH]; [reflexivity|].
  destruct (well_scored_inv x Wx) as [q Hq].
  destruct (score_of_inv x q Hq) as [t Ht].
  cbn [map]. unfold property at 1, score_or_zero at 1. rewrite Ht, Hq.
  cbn [numbers flat_map app]. fold (numbers (map (property "score") l)).
  now rewrite IH.
Qed.

Lemma sorted_scores (l : list value) :
  StronglySorted not_below l ->
  StronglySorted (fun x y => y <= x)%Q (map score_or_zero l).
Proof.
  induction 1 as [|x l Hl IH Hx]; simpl; constructor; [assumption|].
  rewrite Forall_map. eapply Forall_impl; [|exact Hx].
  intros y. unfold not_below, score_or_zero.
  destruct (score_of x), (score_of y); tauto.
Qed.

Lemma combine_bars (l : list value) :
  combine (map (property "name") l) (map (property "score") l) = map bar_of l.
Proof. induction l as [|x l IH]; simpl; [reflexivity | now rewrite IH]. Qed.

(** C10 fails as stated: on a payload whose second item has no score the
    comparator yields [NaN] and the bar of score 10 stays in front of the
    bar of score 90. *)
Lemma missing_score_breaks_order :
  exists chart,
    createCandidateScoresChart no_numeric_strings (VArr payload_missing_a_score)
    = Ok chart
    /\ dataset_data chart = [VNum 10 "10"; VUndefined; VNum 90 "90"]
    /\ ~ descending chart.
Proof.
  eexists. split; [reflexivity|]. split; [reflexivity|].
  unfold descending. cbn. intros S.
  inversion S as [|? ? _ F]; subst.
  inversion F as [|? ? H _]; subst.
  revert H. unfold Qle. cbn. lia.
Qed.

(** C10, as amended. For every payload that is an array whose items each
    have a finite number as score, the chart is built, every bar has its
    number, the numbers never rise from one bar to the next, and the bars
    (label with score) are those of the payload, whatever order the
    payload came in. *)
Theorem bars_in_descending_order (StringToNumber : string -> number) (items : list value) :
  Forall (fun i => well_scored i = true) items ->
  exists chart,
    createCandidateScoresChart StringToNumber (VArr items) = Ok chart
    /\ descending chart
    /\ List.length (numbers (dataset_data chart)) = List.length items
    /\ Permutation (combine (labels chart) (dataset_data chart))
                   (map bar_of items).
Proof.
  intros W. eexists. split; [apply (chart_of_scored StringToNumber items W)|].
  pose proof (sort_scored_well items W) as WS.
  unfold descending. cbn [dataset_data labels].
  rewrite (numbers_of_scores _ WS). repeat split.
  - apply sorted_scores, sort_scored_sorted, W.
  - rewrite length_map.
    apply Permutation_length, sort_scored_perm.
  - rewrite combine_bars. apply Permutation_map, sort_scored_perm.
Qed.

Lemma filter_insert_scored (s : Q) (x : value) (l : list value) :
  filter (scored s) (insert_scored x l) =
  if scored s x then x :: filter (scored s) l else filter (scored s) l.
Proof.
  induction l as [|y l IH]; simpl.
  - now destruct (scored s x).
  - destruct (stands_before x y) eqn:E; simpl.
    + now destruct (scored s x).
    + rewrite IH.
      destruct (scored s y) eqn:Py; [|reflexivity].
      destruct (scored s x) eqn:Px; [|reflexivity].
      exfalso. unfold scored, stands_before in *.
      destruct (score_of x) as [qx|]; [|discriminate].
      destruct (score_of y) as [qy|]; [|discriminate].
      apply Qeq_bool_iff in Px, Py.
      assert (C : Qle_bool (qy - qx) 0 = true).
      { apply Qle_bool_iff. rewrite Px, Py. lra. }
      congruence.
Qed.

Lemma filter_sort_scored (s : Q) (l : list value) :
  filter (scored s) (sort_scored l) = filter (scored s) l.
Proof.
  induction l as [|x l IH]; simpl; [reflexivity|].
  rewrite filter_insert_scored, IH. reflexivity.
Qed.

Lemma filter_map_comm {A B} (f : A -> B) (p : B -> bool) (l : list A) :
  filter p (map f l) = map f (filter (fun a => p (f a)) l).
Proof.
  induction l as [|x l IH]; simpl; [reflexivity|].
  rewrite IH. now destruct (p (f x)).
Qed.

Lemma is_number_score (s : Q) (item : value) :
  well_scored item = true ->
  is_number s (property "score" item) = scored s item.
Proof.
  intros W. destruct (well_scored_inv item W) as [q Hq].
  destruct (score_of_inv item q Hq) as [t Ht].
  unfold property, scored. now rewrite Ht, Hq.
Qed.

(** X1. On a payload whose items each have a finite number as score, the
    bars of the items that share a score stand in the order the payload
    had them in. *)
Theorem equal_scores_keep_payload_order (StringToNumber : string -> number)
    (items : list value) (s : Q) :
  Forall (fun i => well_scored i = true) items ->
  exists chart,
    createCandidateScoresChart StringToNumber (VArr items) = Ok chart
    /\ filter (fun bar => is_number s (snd bar))
              (combine (labels chart) (dataset_data chart)) =
       map bar_of (filter (scored s) items).
Proof.
  intros W. eexists. split; [apply (chart_of_scored StringToNumber items W)|].
  cbn [labels dataset_data].
  rewrite combine_bars, filter_map_comm. cbn [bar_of snd].
  rewrite <- (filter_sort_scored s items). f_equal.
  apply filter_ext_in. intros a Ha.
  apply is_number_score.
  pose proof (sort_scored_well items W) as WS.
  rewrite Forall_forall in WS. now apply WS.
Qed.

Lemma sort_of_sorted (l : list value) :
  StronglySorted not_below l -> sort_scored l = l.
Proof.
  induction 1 as [|x l Hl IH Hx]; simpl; [reflexivity|].
  rewrite IH. destruct l as [|y l]; [reflexivity|]. simpl.
  inversion Hx as [|? ? Hxy _]; subst.
  unfold not_below in Hxy. unfold stands_before.
  destruct (score_of x) as [qx|]; [|contradiction].
  destruct (score_of y) as [qy|]; [|contradiction].
  assert (C : Qle_bool (qy - qx) 0 = true) by (apply Qle_bool_iff; lra).
  now rewrite C.
Qed.

(** X2. A payload whose items each have a finite number as score and
    that already is in non-increasing order of score is charted in its
    own order. *)
Theorem ordered_payload_is_kept (StringToNumber : string -> number)
    (items : list value) :
  Forall (fun i => well_scored i = true) items ->
  StronglySorted not_below items ->
  exists chart,
    createCandidateScoresChart StringToNumber (VArr items) = Ok chart
    /\ labels chart = map (property "name") items
    /\ dataset_data chart = map (property "score") items.
Proof.
  intros W S. eexists. split; [apply (chart_of_scored StringToNumber items W)|].
  cbn [labels dataset_data]. now rewrite (sort_of_sorted items S).
Qed.

Lemma count_permutation {A} (p : A -> bool) (l l' : list A) :
  Permutation l l' -> count p l = count p l'.
Proof.
  unfold count. induction 1 as [|x l l' _ IH|x y l|l1 l2 l3 _ IH1 _ IH2]; simpl.
  - reflexivity.
  - destruct (p x); simpl; now rewrite IH.
  - destruct (p x), (p y); reflexivity.
  - now rewrite IH1.
Qed.

Lemma count_none {A} (p : A -> bool) (l : list A) :
  Forall (fun y => p y = false) l -> count p l = 0%nat.
Proof.
  unfold count. induction 1 as [|y l Hy _ IH]; simpl; [reflexivity|].
  now rewrite Hy.
Qed.

Lemma count_cons {A} (p : A -> bool) (x : A) (l : list A) :
  count p (x :: l) = ((if p x then 1 else 0) + count p l)%nat.
Proof. unfold count. simpl. now destruct (p x). Qed.

Lemma none_above (bound qx : Q) (x : value) (l : list value) :
  score_of x = Some qx ->
  Forall (not_below x) l ->
  Qle_bool bound qx = false ->
  Forall (fun y => match score_of y with
                   | Some q => Qle_bool bound q
                   | None => false
                   end = false) l.
Proof.
  intros Hx H Hb. eapply Forall_impl; [|exact H].
  intros y Hy. unfold not_below in Hy. rewrite Hx in Hy.
  destruct (score_of y) as [qy|]; [|reflexivity].
  destruct (Qle_bool bound qy) eqn:E; [|reflexivity].
  apply Qle_bool_iff in E.
  assert (C : Qle_bool bound qx = true) by (apply Qle_bool_iff; lra).
  congruence.
Qed.

(** In a list in descending order the bands follow one another. *)
Lemma banded (green yellow red : string) (l : list value) :
  Forall (fun i => well_scored i = true) l ->
  StronglySorted not_below l ->
  map (band_colour green yellow red) l =
  (repeat green (count high l) ++ repeat yellow (count medium l)
     ++ repeat red (count low l))%list.
Proof.
  intros W S. revert W.
  induction S as [|x l Hl IH Hx]; intros W; [reflexivity|].
  inversion W as [|? ? Wx Wl]; subst.
  destruct (well_scored_inv x Wx) as [q Hq].
  assert (Hc : band_colour green yellow red x =
               if Qle_bool 75 q then green
               else if Qle_bool 50 q then yellow else red)
    by (unfold band_colour; now rewrite Hq).
  assert (Hh : high x = Qle_bool 75 q) by (unfold high; now rewrite Hq).
  assert (Hm : medium x = negb (Qle_bool 75 q) && Qle_bool 50 q)
    by (unfold medium; now rewrite Hq).
  assert (Hw : low x = negb (Qle_bool 50 q)) by (unfold low; now rewrite Hq).
  cbn [map]. rewrite (IH Wl), !count_cons, Hc, Hh, Hm, Hw.
  destruct (Qle_bool 75 q) eqn:E75; cbn [negb andb].
  - assert (E50 : Qle_bool 50 q = true).
    { apply Qle_bool_iff in E75. apply Qle_bool_iff. lra. }
    rewrite E50. reflexivity.
  - assert (H0 : count high l = 0%nat)
      by (apply count_none; exact (none_above 75 q x l Hq Hx E75)).
    rewrite H0.
    destruct (Qle_bool 50 q) eqn:E50; cbn [negb].
    + reflexivity.
    + assert (M0 : count medium l = 0%nat).
      { apply count_none.
        pose proof (none_above 50 q x l Hq Hx E50) as F.
        eapply Forall_impl; [|exact F].
        intros c. unfold medium.
        destruct (score_of c) as [qc|]; [|reflexivity].
        intros Hc50. rewrite Hc50. apply andb_false_r. }
      rewrite M0. reflexivity.
Qed.

(** X3. On a payload whose items each have a finite number as score, the
    bar colours come in three blocks, green, then yellow, then red, of as
    many bars as the payload has items with a score of at least 75, of at
    least 50 but below 75, and below 50; the border colours likewise. *)
Theorem bars_are_banded (StringToNumber : string -> number)
    (items : list value) :
  Forall (fun i => well_scored i = true) items ->
  exists chart,
    createCandidateScoresChart StringToNumber (VArr items) = Ok chart
    /\ backgroundColor chart =
       (repeat "rgba(40, 167, 69, 0.7)" (count high items)
          ++ repeat "rgba(255, 193, 7, 0.7)" (count medium items)
          ++ repeat "rgba(220, 53, 69, 0.7)" (count low items))%list
    /\ borderColor chart =
       (repeat "rgb(40, 167, 69)" (count high items)
          ++ repeat "rgb(255, 193, 7)" (count medium items)
          ++ repeat "rgb(220, 53, 69)" (count low items))%list.
Proof.
  intros W. eexists. split; [apply (chart_of_scored StringToNumber items W)|].
  cbn [backgroundColor borderColor].
  pose proof (sort_scored_sorted items W) as S.
  pose proof (sort_scored_well items W) as WS.
  pose proof (sort_scored_perm items) as P.
  rewrite <- (count_permutation high _ _ P).
  rewrite <- (count_permutation medium _ _ P).
  rewrite <- (count_permutation low _ _ P).
  split; now apply banded.
Qed.

End ChartProofs.

Section RendererExtras.

Lemma has_class_remove (c : string) (l : list string) :
  has_class c (classList_remove c l) = false.
Proof.
  unfold has_class, classList_remove.
  induction l as [|x l IH]; simpl; [reflexivity|].
  destruct (String.eqb c x) eqn:E; simpl; [exact IH|].
  now rewrite E.
Qed.

Lemma has_class_remove_other (c x : string) (l : list string) :
  x <> c -> has_class x (classList_remove c l) = has_class x l.
Proof.
  intros Hne. unfold has_class, classList_remove.
  induction l as [|y l IH]; simpl; [reflexivity|].
  destruct (String.eqb c y) eqn:E; simpl.
  - apply String.eqb_eq in E. subst y.
    apply String.eqb_neq in Hne. now rewrite Hne.
  - now rewrite IH.
Qed.

Lemma has_class_add_other (c x : string) (l : list string) :
  x <> c -> has_class x (classList_add c l) = has_class x l.
Proof.
  intros Hne. unfold classList_add.
  destruct (has_class c l); [reflexivity|].
  unfold has_class. rewrite existsb_app. simpl.
  apply String.eqb_neq in Hne. rewrite Hne. now rewrite !orb_false_r.
Qed.

(** Every section the renderer builds is a [div.mb-4] of a heading and
    one more node. *)
Lemma section_shape (title : string) (items : value) (sec : node) :
  createAnalysisSection title items = Ok sec ->
  exists body,
    sec = Element "div" "mb-4" []
            [set_textContent (Element "h5" "" [] []) title; body].
Proof.
  unfold createAnalysisSection.
  destruct (length_is_zero items) as [[|]|e]; cbn [JS.bind]; try discriminate.
  - intros E. injection E as <-. eexists. reflexivity.
  - destruct (forEach items append_list_item _) as [list|e]; cbn [JS.bind];
      try discriminate.
    intros E. injection E as <-. eexists. reflexivity.
Qed.

Lemma build_sections_shape (a : value) (secs : list (string * node)) :
  build_sections a = Ok secs ->
  exists b1 b2 b3 b4,
    Object_values secs =
    [Element "div" "mb-4" [] [heading_node "Required Skills"; b1];
     Element "div" "mb-4" [] [heading_node "Experience Requirements"; b2];
     Element "div" "mb-4" [] [heading_node "Qualifications"; b3];
     Element "div" "mb-4" [] [heading_node "Responsibilities"; b4]].
Proof.
  unfold build_sections.
  destruct (get_prop a "skills") as [v1|]; cbn [JS.bind]; try discriminate.
  destruct (createAnalysisSection "Required Skills" _) as [s1|] eqn:S1;
    cbn [JS.bind]; try discriminate.
  destruct (get_prop a "experience") as [v2|]; cbn [JS.bind]; try discriminate.
  destruct (createAnalysisSection "Experience Requirements" _) as [s2|] eqn:S2;
    cbn [JS.bind]; try discriminate.
  destruct (get_prop a "qualifications") as [v3|]; cbn [JS.bind]; try discriminate.
  destruct (createAnalysisSection "Qualifications" _) as [s3|] eqn:S3;
    cbn [JS.bind]; try discriminate.
  destruct (get_prop a "responsibilities") as [v4|]; cbn [JS.bind]; try discriminate.
  destruct (createAnalysisSection "Responsibilities" _) as [s4|] eqn:S4;
    cbn [JS.bind]; try discriminate.
  intros E. injection E as <-.
  destruct (section_shape _ _ _ S1) as [b1 ->].
  destruct (section_shape _ _ _ S2) as [b2 ->].
  destruct (section_shape _ _ _ S3) as [b3 ->].
  destruct (section_shape _ _ _ S4) as [b4 ->].
  exists b1, b2, b3, b4. reflexivity.
Qed.

(** X4. Whenever the renderer returns normally the container holds
    exactly four sections, each a heading with its fixed title followed
    by one node, in the order skills, experience, qualifications,
    responsibilities. *)
Theorem four_headed_sections (a : value) (c : element) :
  fst (populateJdResults a (Some c)) = Ok tt ->
  exists b1 b2 b3 b4,
    contents (snd (populateJdResults a (Some c))) =
    [Element "div" "mb-4" [] [heading_node "Required Skills"; b1];
     Element "div" "mb-4" [] [heading_node "Experience Requirements"; b2];
     Element "div" "mb-4" [] [heading_node "Qualifications"; b3];
     Element "div" "mb-4" [] [heading_node "Responsibilities"; b4]].
Proof.
  rewrite populate_completion, populate_contents.
  destruct (build_sections a) as [secs|e] eqn:B; [|discriminate].
  intros _. exact (build_sections_shape a secs B).
Qed.

(** X5. When the renderer throws, the container is left empty, its
    earlier content gone, and its classes are as they were. *)
Theorem failed_render_empties_container (a : value) (c : element) (e : js_error) :
  fst (populateJdResults a (Some c)) = Throw e ->
  snd (populateJdResults a (Some c)) = Some (mkElement (classList c) []).
Proof.
  unfold populateJdResults.
  destruct (build_sections a); [discriminate | reflexivity].
Qed.

(** X6. When the renderer returns normally the container carries
    [fade-in], no longer carries [d-none], and keeps every other class. *)
Theorem rendered_container_is_revealed (a : value) (c : element) :
  fst (populateJdResults a (Some c)) = Ok tt ->
  exists c',
    snd (populateJdResults a (Some c)) = Some c'
    /\ has_class "fade-in" (classList c') = true
    /\ has_class "d-none" (classList c') = false
    /\ (forall x, x <> "fade-in" -> x <> "d-none" ->
          has_class x (classList c') = has_class x (classList c)).
Proof.
  unfold populateJdResults.
  destruct (build_sections a) as [secs|e]; [|discriminate].
  intros _. eexists. split; [reflexivity|].
  cbn [classList].
  assert (G : forall (l : list node) (e : element),
             classList (fold_left
                          (fun c0 section =>
                             mkElement (classList c0) (children c0 ++ [section])%list)
                          l e) = classList e).
  { induction l as [|x l IH]; intros e; simpl; [reflexivity | now rewrite IH]. }
  rewrite G. cbn [classList].
  repeat split.
  - rewrite has_class_remove_other by discriminate. apply has_class_add.
  - apply has_class_remove.
  - intros x H1 H2.
    now rewrite has_class_remove_other, has_class_add_other.
Qed.

(** X7. Two analysis values that agree on the four fields are rendered
    alike: key order and any other key play no part. *)
Theorem render_reads_four_fields (a a' : value) (c : option element) :
  (forall k t, In (k, t) analysis_fields -> get_prop a k = get_prop a' k) ->
  populateJdResults a c = populateJdResults a' c.
Proof.
  intros H. unfold populateJdResults, build_sections.
  rewrite (H "skills" "Required Skills") by (simpl; tauto).
  rewrite (H "experience" "Experience Requirements") by (simpl; tauto).
  rewrite (H "qualifications" "Qualifications") by (simpl; tauto).
  rewrite (H "responsibilities" "Responsibilities") by (simpl; tauto).
  reflexivity.
Qed.

End RendererExtras.

Section CoordinatorExtras.

(** The page a submission ends in, when the response is 2xx with a JSON
    body. *)
Lemma submit_data_run (k : form_id) (env : environment) (w : world) (f : form)
    (status : Z) (data : value) :
  get_form k w = Some f ->
  net env = Response status (Some data) ->
  response_ok status = true ->
  submit k env w =
  settled k
    (match fst (on_data k env data (data_arrived k f w)) with
     | Ok _ => snd (on_data k env data (data_arrived k f w))
     | Throw e => caught k e (snd (on_data k env data (data_arrived k f w)))
     end).
Proof.
  intros Hf Hn Hok. rewrite (submit_run k env w f Hf).
  now rewrite (responded_data k env _ status data Hn Hok).
Qed.

Lemma trace_data_arrived (k : form_id) (f : form) (w : world) :
  trace (data_arrived k f w) =
  (trace w ++ [EPreventDefault; EFetch "POST" (endpoint k) (fields f);
               EReaction OnResponse; EReaction OnData])%list.
Proof.
  unfold data_arrived. cbn [trace emit]. rewrite trace_request_sent.
  now rewrite <- !app_assoc.
Qed.

Lemma alerts_data_arrived (k : form_id) (f : form) (w : world) :
  alerts_container (data_arrived k f w) = alerts_container w.
Proof. unfold data_arrived. cbn [alerts_container emit]. apply alerts_request_sent. Qed.

Lemma results_data_arrived (k : form_id) (f : form) (w : world) :
  jd_results (data_arrived k f w) = jd_results w.
Proof. unfold data_arrived. cbn [jd_results emit]. apply results_request_sent. Qed.

(** The events of an upload answered 2xx with a JSON body, with the
    part the [catch] handler adds when the success handler throws. *)
Lemma trace_submit_data_exact (k : form_id) (env : environment) (w : world)
    (f : form) (status : Z) (data : value) :
  get_form k w = Some f ->
  net env = Response status (Some data) ->
  response_ok status = true ->
  trace (submit k env w) =
  (trace w ++ [EPreventDefault; EFetch "POST" (endpoint k) (fields f);
               EReaction OnResponse; EReaction OnData]
     ++ alert_timer "success" (success_message k) w
     ++ match k with JD => [] | CV => nav_events env data end
     ++ match fst (on_data k env data (data_arrived k f w)) with
        | Ok _ => []
        | Throw e => [EReaction OnError; EConsoleError "Error:" e]
                       ++ alert_timer "danger" (failure_message k) w
        end
     ++ [EReaction OnSettled])%list.
Proof.
  intros Hf Hn Hok.
  rewrite (submit_data_run k env w f status data Hf Hn Hok), trace_settled.
  destruct (on_data_effect k env data (data_arrived k f w)) as (_ & T & _ & A & _).
  rewrite (alert_timer_same _ _ w (data_arrived k f w)) in T
    by now rewrite alerts_data_arrived.
  rewrite trace_data_arrived in T.
  destruct (fst (on_data k env data (data_arrived k f w))) as [u|e].
  - rewrite T. now rewrite <- !app_assoc.
  - rewrite trace_caught, T.
    rewrite (alert_timer_same _ _ w (snd (on_data k env data (data_arrived k f w)))).
    2:{ rewrite A, alerts_presence_with_alert. now rewrite alerts_data_arrived. }
    now rewrite <- !app_assoc.
Qed.

Lemma flat_map_nav {A} (g : event -> list A) (env : environment) (data : value) :
  (forall h, g (ENavigate h) = []) ->
  flat_map g (nav_events env data) = [].
Proof.
  intros H. unfold nav_events.
  destruct (get_prop data "redirect") as [v|]; [|reflexivity].
  destruct (truthy v); [|reflexivity].
  destruct (ToString v) as [h|]; [|reflexivity].
  destruct (url_parses env h); [|reflexivity].
  cbn. now rewrite H.
Qed.

(** X8. A submission of an existing form issues exactly one request,
    whatever the outcome: a POST to the endpoint of the form with the
    fields of the form as its body. *)
Theorem one_request_per_submission (k : form_id) (env : environment)
    (w : world) (f : form) :
  get_form k w = Some f ->
  fetched (submit k env w) = (fetched w ++ [("POST", endpoint k, fields f)])%list.
Proof.
  intros Hf. unfold fetched.
  destruct (failed_or_data (net env)) as [F | (status & data & Hn & Hok)].
  - rewrite (observe_app _ _ _ _ (trace_submit_failed k env w f Hf F)).
    rewrite !flat_map_app, flat_map_timer by reflexivity.
    destruct (net env); reflexivity.
  - rewrite (observe_app _ _ _ _
               (trace_submit_data_exact k env w f status data Hf Hn Hok)).
    rewrite !flat_map_app, !flat_map_timer by reflexivity.
    assert (N : flat_map
                  (fun e => match e with
                            | EFetch m url body => [(m, url, body)]
                            | _ => []
                            end)
                  match k with JD => [] | CV => nav_events env data end = []).
    { destruct k; [reflexivity | now apply flat_map_nav]. }
    rewrite N.
    destruct (fst (on_data k env data (data_arrived k f w)));
      rewrite ?flat_map_app, ?flat_map_timer by reflexivity; reflexivity.
Qed.

(** X9. Submitting one form leaves the button and the spinner of the
    other form as they were. *)
Theorem other_form_untouched (k k' : form_id) (env : environment) (w : world) :
  k' <> k ->
  get_form k' (submit k env w) = get_form k' w.
Proof.
  intros Hne.
  destruct (get_form k w) as [f|] eqn:Hf;
    [|unfold submit; now rewrite Hf].
  rewrite (submit_run k env w f Hf).
  assert (S : forall w0, get_form k' (settled k w0) = get_form k' w0).
  { intros w0. unfold settled. cbv zeta.
    destruct (get_form k (emit (EReaction OnSettled) w0)).
    - destruct k, k'; try congruence; reflexivity.
    - apply get_form_emit. }
  rewrite S, forms_responded.
  unfold request_sent. rewrite get_form_emit.
  destruct k, k'; try congruence; reflexivity.
Qed.

(** X10. A job-description upload never navigates, whatever the
    response holds. *)
Theorem job_description_never_navigates (env : environment) (w : world) :
  navigations (submit JD env w) = navigations w.
Proof.
  destruct (get_form JD w) as [f|] eqn:Hf;
    [|unfold submit; now rewrite Hf].
  unfold navigations.
  destruct (failed_or_data (net env)) as [F | (status & data & Hn & Hok)].
  - rewrite (observe_app _ _ _ _ (trace_submit_failed JD env w f Hf F)).
    rewrite !flat_map_app, flat_map_timer by reflexivity.
    destruct (net env); cbn; now rewrite app_nil_r.
  - rewrite (observe_app _ _ _ _
               (trace_submit_data_exact JD env w f status data Hf Hn Hok)).
    rewrite !flat_map_app, !flat_map_timer by reflexivity.
    destruct (fst (on_data JD env data (data_arrived JD f w)));
      rewrite ?flat_map_app, ?flat_map_timer by reflexivity; cbn;
      now rewrite app_nil_r.
Qed.

(** X11. On a 2xx response with a JSON body, on a page with the
    notification area, the success notification is appended to the ones
    already there; when the success handler then throws, the danger
    notification follows it. *)
Theorem success_notification_comes_first (k : form_id) (env : environment)
    (w : world) (f : form) (status : Z) (data : value) (c : element) :
  get_form k w = Some f ->
  net env = Response status (Some data) ->
  response_ok status = true ->
  alerts_container w = Some c ->
  notifications (submit k env w) =
  (children c ++ alert_node "success" (success_message k)
     :: if is_ok (fst (on_data k env data (data_arrived k f w)))
        then []
        else [alert_node "danger" (failure_message k)])%list.
Proof.
  intros Hf Hn Hok Ha. unfold notifications.
  rewrite (submit_data_run k env w f status data Hf Hn Hok), alerts_settled.
  destruct (on_data_effect k env data (data_arrived k f w)) as (_ & _ & _ & A & _).
  rewrite alerts_with_alert, alerts_data_arrived, Ha in A.
  destruct (fst (on_data k env data (data_arrived k f w))) as [u|e]; cbn [is_ok].
  - now rewrite A.
  - rewrite alerts_caught, alerts_with_alert, A. cbn [children classList].
    now rewrite <- app_assoc.
Qed.

Lemma results_jd_on_data (data : value) (w : world) :
  jd_results (snd (jd_on_data data w)) =
  match jd_results w with
  | None => None
  | Some c =>
      match get_prop data "analysis" with
      | Ok analysis =>
          if truthy analysis then snd (populateJdResults analysis (Some c))
          else Some c
      | Throw _ => Some c
      end
  end.
Proof.
  unfold jd_on_data, mbind, get, lift, ret.
  rewrite showAlert_run, results_with_alert.
  destruct (jd_results w) as [c|] eqn:Er; cbn [fst snd];
    [|now rewrite results_with_alert].
  destruct (get_prop data "analysis") as [a|e]; cbn [fst snd];
    [|now rewrite results_with_alert].
  destruct (truthy a); cbn [fst snd]; [|now rewrite results_with_alert].
  now destruct (populateJdResults a (Some c)).
Qed.

(** X12. On a 2xx response with a JSON body the results container ends
    as the renderer leaves it, when the container exists and the payload
    has a truthy [analysis]; otherwise it is not touched. *)
Theorem results_rendered_from_analysis (env : environment) (w : world) (f : form)
    (status : Z) (data : value) :
  get_form JD w = Some f ->
  net env = Response status (Some data) ->
  response_ok status = true ->
  jd_results (submit JD env w) =
  match jd_results w with
  | None => None
  | Some c =>
      match get_prop data "analysis" with
      | Ok analysis =>
          if truthy analysis then snd (populateJdResults analysis (Some c))
          else Some c
      | Throw _ => Some c
      end
  end.
Proof.
  intros Hf Hn Hok.
  rewrite (submit_data_run JD env w f status data Hf Hn Hok), results_settled.
  pose proof (results_jd_on_data data (data_arrived JD f w)) as R.
  rewrite results_data_arrived in R. cbn [on_data].
  destruct (fst (jd_on_data data (data_arrived JD f w)));
    [|rewrite results_caught]; exact R.
Qed.

(** X13. A submission sets one timer of 5000 ms for each notification
    it adds to the notification area, and no other timer. *)
Theorem one_timer_per_notification (k : form_id) (env : environment)
    (w : world) (f : form) :
  get_form k w = Some f ->
  timers (submit k env w) =
  (timers w ++
   repeat 5000%Z (List.length (notifications (submit k env w))
                  - List.length (notifications w)))%list.
Proof.
  intros Hf. unfold timers, notifications.
  destruct (failed_or_data (net env)) as [F | (status & data & Hn & Hok)].
  - rewrite (observe_app _ _ _ _ (trace_submit_failed k env w f Hf F)).
    rewrite (submit_run k env w f Hf), alerts_settled.
    rewrite (responded_failed k env _ F), alerts_caught, alerts_with_alert.
    rewrite alerts_after_response, alerts_request_sent.
    rewrite !flat_map_app. unfold alert_timer.
    destruct (alerts_container w) as [c|]; cbn [children classList].
    + rewrite length_app. cbn [List.length].
      replace (List.length (children c) + 1 - List.length (children c))%nat
        with 1%nat by lia.
      destruct (net env); reflexivity.
    + destruct (net env); reflexivity.
  - rewrite (observe_app _ _ _ _
               (trace_submit_data_exact k env w f status data Hf Hn Hok)).
    rewrite (submit_data_run k env w f status data Hf Hn Hok), alerts_settled.
    destruct (on_data_effect k env data (data_arrived k f w)) as (_ & _ & _ & A & _).
    rewrite alerts_with_alert, alerts_data_arrived in A.
    assert (N : flat_map
                  (fun e => match e with ESetTimeout ms _ => [ms] | _ => [] end)
                  match k with JD => [] | CV => nav_events env data end = []).
    { destruct k; [reflexivity | now apply flat_map_nav]. }
    rewrite !flat_map_app, N. unfold alert_timer.
    destruct (fst (on_data k env data (data_arrived k f w))) as [u|e].
    + rewrite A. destruct (alerts_container w) as [c|]; cbn [children classList].
      * rewrite length_app. cbn [List.length].
        replace (List.length (children c) + 1 - List.length (children c))%nat
          with 1%nat by lia.
        reflexivity.
      * reflexivity.
    + rewrite alerts_caught, alerts_with_alert, A.
      destruct (alerts_container w) as [c|]; cbn [children classList].
      * rewrite !length_app. cbn [List.length].
        replace (List.length (children c) + 1 + 1 - List.length (children c))%nat
          with 2%nat by lia.
        reflexivity.
      * reflexivity.
Qed.

End CoordinatorExtras.

Section FileUploadExtras.

Import FileUpload.

Lemma updateFileName_shows (inp : file_input) (d : element) :
  exists d', updateFileName inp (Some d) = Some d' /\ shows_selection inp d'.
Proof.
  unfold updateFileName, shows_selection.
  destruct (files inp) as [|first rest]; eexists; (split; [reflexivity|]);
    cbn [with_classList set_text classList children].
  - split; [apply has_class_add | reflexivity].
  - split; [apply has_class_remove | reflexivity].
Qed.

Lemma bound_inv (u : upload) :
  bound u = true ->
  exists area inp, uploadArea u = Some area /\ input u = Some inp.
Proof.
  unfold bound. destruct (uploadArea u) as [a|], (input u) as [i|];
    try discriminate. eauto.
Qed.

Lemma handle_keeps_bound (u : upload) (e : upload_event) :
  bound u = true -> bound (fst (handle u e)) = true.
Proof.
  intros B. destruct (bound_inv u B) as (area & inp & Ha & Hi).
  unfold handle. rewrite Ha, Hi.
  destruct e as [| | |[|x dropped]|chosen]; cbn; try reflexivity.
  unfold bound. now rewrite Ha, Hi.
Qed.

Lemma run_cons (u : upload) (e : upload_event) (rest : list upload_event) :
  fst (run u (e :: rest)) = fst (run (fst (handle u e)) rest).
Proof.
  cbn [run]. destruct (handle u e) as [u1 fx]. cbn [fst].
  now destruct (run u1 rest).
Qed.

Lemma handle_keeps_step (u : upload) (e : upload_event) :
  bound u = true -> display_in_step u -> display_in_step (fst (handle u e)).
Proof.
  intros B S. destruct (bound_inv u B) as (area & inp & Ha & Hi).
  unfold display_in_step in *. unfold handle. rewrite Ha, Hi in *.
  destruct e as [| | |[|x dropped]|chosen];
    cbn [fst input fileNameDisplay]; try (rewrite ?Hi; exact S).
  - destruct (fileNameDisplay u) as [d|]; [|exact I].
    destruct (updateFileName_shows (mkInput (x :: dropped)) d) as (d' & -> & H).
    exact H.
  - destruct (fileNameDisplay u) as [d|]; [|exact I].
    destruct (updateFileName_shows (mkInput chosen) d) as (d' & -> & H).
    exact H.
Qed.

(** X14. On a block with area and input, a display that shows the
    selection of the input still does so after any sequence of clicks,
    drag events, drops and selections. *)
Theorem display_follows_selection (u : upload) (events : list upload_event) :
  bound u = true ->
  display_in_step u ->
  display_in_step (fst (run u events)).
Proof.
  revert u. induction events as [|e rest IH]; intros u B S; [exact S|].
  rewrite run_cons. apply IH.
  - now apply handle_keeps_bound.
  - now apply handle_keeps_step.
Qed.


(** X16. A drop that carries no files keeps the selection and the
    display as they are; of the area it removes the class [active] and
    nothing else, every other class and the content stay, and it
    suppresses the default action. *)
Theorem empty_drop_keeps_selection (u : upload) :
  bound u = true ->
  let u' := fst (handle u (Drop [])) in
  input u' = input u
  /\ fileNameDisplay u' = fileNameDisplay u
  /\ active u' = false
  /\ snd (handle u (Drop [])) = [PreventDefault]
  /\ (exists area,
        uploadArea u = Some area
        /\ uploadArea u' =
           Some (mkElement (classList_remove "active" (classList area))
                           (children area))
        /\ forall x, x <> "active" ->
             has_class x (classList_remove "active" (classList area)) =
             has_class x (classList area)).
Proof.
  intros B. destruct (bound_inv u B) as (area & inp & Ha & Hi).
  unfold handle, active. rewrite Ha, Hi.
  cbn [fst snd input fileNameDisplay uploadArea with_classList classList].
  split; [reflexivity|]. split; [reflexivity|].
  split; [apply has_class_remove|]. split; [reflexivity|].
  exists area. split; [reflexivity|]. split; [reflexivity|].
  intros x Hx. now apply has_class_remove_other.
Qed.

Lemma handle_active (u : upload) (e : upload_event) :
  bound u = true -> active (fst (handle u e)) = drag_state (active u) e.
Proof.
  intros B. destruct (bound_inv u B) as (area & inp & Ha & Hi).
  unfold handle, active. rewrite Ha, Hi.
  destruct e as [| | |[|x dropped]|chosen];
    cbn [fst uploadArea with_classList classList drag_state];
    rewrite ?Ha; try reflexivity;
    first [apply has_class_add | apply has_class_remove].
Qed.

(** X17. The area is highlighted exactly when the last drag event was a
    dragover: dragleave and drop end the highlight, clicks and selections
    leave it alone. *)
Theorem highlight_follows_drag (u : upload) (events : list upload_event) :
  bound u = true ->
  active (fst (run u events)) = fold_left drag_state events (active u).
Proof.
  revert u. induction events as [|e rest IH]; intros u B; [reflexivity|].
  rewrite run_cons, IH by now apply handle_keeps_bound.
  cbn [fold_left]. now rewrite handle_active.
Qed.

(** X18. A block that lacks the area or the input never reacts: no
    event has an effect, and its area and display never change, not even
    when files are chosen in its input. *)
Theorem incomplete_block_is_inert (u : upload) (events : list upload_event) :
  bound u = false ->
  snd (run u events) = []
  /\ uploadArea (fst (run u events)) = uploadArea u
  /\ fileNameDisplay (fst (run u events)) = fileNameDisplay u.
Proof.
  revert u. induction events as [|e rest IH]; intros u B; [now repeat split|].
  assert (H : snd (handle u e) = []
              /\ uploadArea (fst (handle u e)) = uploadArea u
              /\ fileNameDisplay (fst (handle u e)) = fileNameDisplay u
              /\ bound (fst (handle u e)) = false).
  { unfold bound in *. unfold handle.
    destruct (uploadArea u) as [a|] eqn:Ha, (input u) as [i|] eqn:Hi;
      try discriminate; destruct e; cbn; rewrite ?Ha, ?Hi; repeat split. }
  destruct H as (Hfx & Har & Hdi & Hb).
  destruct (IH (fst (handle u e)) Hb) as (I1 & I2 & I3).
  cbn [run]. destruct (handle u e) as [u1 fx]. cbn [fst snd] in *.
  destruct (run u1 rest) as [u2 fx']. cbn [fst snd] in *.
  subst. repeat split; congruence.
Qed.

(** X19. Dropping files on the area makes them the selection of the
    input, shows the name of the first one, and ends the highlight. *)
Theorem dropped_files_replace_selection (u : upload) (first : file)
    (others : list file) (d : element) :
  bound u = true ->
  fileNameDisplay u = Some d ->
  let u' := fst (handle u (Drop (first :: others))) in
  exists d',
    fileNameDisplay u' = Some d'
    /\ input u' = Some (mkInput (first :: others))
    /\ shows_selection (mkInput (first :: others)) d'
    /\ active u' = false.
Proof.
  intros B Hd. destruct (bound_inv u B) as (area & inp & Ha & Hi).
  unfold handle, active. rewrite Ha, Hi, Hd.
  cbn [fst fileNameDisplay input uploadArea with_classList classList].
  destruct (updateFileName_shows (mkInput (first :: others)) d) as (d' & E & H).
  exists d'. rewrite E. split; [reflexivity|]. split; [reflexivity|].
  split; [exact H|]. apply has_class_remove.
Qed.

End FileUploadExtras.

(** ** The further properties at concrete inputs *)

Section FurtherInstances.

Example non_array_payload_throws :
  is_ok (Charts.createCandidateScoresChart no_numeric_strings
           (VObj [("error", VStr "unauthorized")])) = false.
Proof. reflexivity. Qed.

Example equal_scores_keep_their_order :
  option_map Charts.labels
    (match Charts.createCandidateScoresChart no_numeric_strings
             (VArr [candidate "Ada" 50 "50"; candidate "Bob" (175 # 2) "87.5";
                    candidate "Cy" 50 "50"; candidate "Di" 90 "90"]) with
     | Ok chart => Some chart
     | Throw _ => None
     end) =
  Some [VStr "Di"; VStr "Bob"; VStr "Ada"; VStr "Cy"].
Proof. reflexivity. Qed.

Lemma bars_in_descending_order_witness :
  let items := [candidate "Ada" 50 "50"; candidate "Di" 90 "90";
                candidate "Bob" (175 # 2) "87.5"] in
  Forall (fun i => well_scored i = true) items /\
  exists chart,
    Charts.createCandidateScoresChart no_numeric_strings (VArr items) = Ok chart
    /\ descending chart
    /\ List.length (numbers (Charts.dataset_data chart)) = List.length items
    /\ Permutation (combine (Charts.labels chart) (Charts.dataset_data chart))
                   (map bar_of items).
Proof.
  cbv zeta. split; [repeat constructor|].
  apply (bars_in_descending_order no_numeric_strings
           [candidate "Ada" 50 "50"; candidate "Di" 90 "90";
            candidate "Bob" (175 # 2) "87.5"]).
  repeat constructor.
Defined.

Lemma equal_scores_keep_payload_order_witness :
  let items := [candidate "Ada" 50 "50"; candidate "Di" 90 "90";
                candidate "Cy" 50 "50"] in
  Forall (fun i => well_scored i = true) items /\
  exists chart,
    Charts.createCandidateScoresChart no_numeric_strings (VArr items) = Ok chart
    /\ filter (fun bar => is_number 50 (snd bar))
              (combine (Charts.labels chart) (Charts.dataset_data chart)) =
       map bar_of (filter (scored 50) items).
Proof.
  cbv zeta. split; [repeat constructor|].
  apply (equal_scores_keep_payload_order no_numeric_strings
           [candidate "Ada" 50 "50"; candidate "Di" 90 "90";
            candidate "Cy" 50 "50"] 50).
  repeat constructor.
Defined.

Lemma ordered_payload_is_kept_witness :
  Forall (fun i => well_scored i = true) ordered_payload /\
  StronglySorted not_below ordered_payload /\
  exists chart,
    Charts.createCandidateScoresChart no_numeric_strings (VArr ordered_payload)
    = Ok chart
    /\ Charts.labels chart = map (property "name") ordered_payload
    /\ Charts.dataset_data chart = map (property "score") ordered_payload.
Proof.
  assert (W : Forall (fun i => well_scored i = true) ordered_payload)
    by repeat constructor.
  assert (S : StronglySorted not_below ordered_payload).
  { unfold ordered_payload.
    repeat constructor; unfold not_below; cbn; unfold Qle; cbn; lia. }
  split; [exact W|]. split; [exact S|].
  exact (ordered_payload_is_kept no_numeric_strings ordered_payload W S).
Defined.

Lemma bars_are_banded_witness :
  let items := [candidate "Ada" 50 "50"; candidate "Di" 90 "90";
                candidate "Eve" 20 "20"] in
  Forall (fun i => well_scored i = true) items /\
  exists chart,
    Charts.createCandidateScoresChart no_numeric_strings (VArr items) = Ok chart
    /\ Charts.backgroundColor chart =
       ["rgba(40, 167, 69, 0.7)"; "rgba(255, 193, 7, 0.7)"; "rgba(220, 53, 69, 0.7)"].
Proof.
  cbv zeta. split; [repeat constructor|].
  destruct (bars_are_banded no_numeric_strings
              [candidate "Ada" 50 "50"; candidate "Di" 90 "90";
               candidate "Eve" 20 "20"])
    as (chart & E & B & _); [repeat constructor|].
  exists chart. split; [exact E | exact B].
Defined.

Lemma four_headed_sections_witness :
  let a := VObj [("skills", VArr [VStr "Go"])] in
  let c := mkElement ["d-none"] [] in
  fst (populateJdResults a (Some c)) = Ok tt /\
  exists b1 b2 b3 b4,
    contents (snd (populateJdResults a (Some c))) =
    [Element "div" "mb-4" [] [heading_node "Required Skills"; b1];
     Element "div" "mb-4" [] [heading_node "Experience Requirements"; b2];
     Element "div" "mb-4" [] [heading_node "Qualifications"; b3];
     Element "div" "mb-4" [] [heading_node "Responsibilities"; b4]].
Proof.
  cbv zeta. split; [reflexivity|].
  apply (four_headed_sections (VObj [("skills", VArr [VStr "Go"])])
           (mkElement ["d-none"] [])).
  reflexivity.
Defined.

Lemma failed_render_empties_container_witness :
  let a := VObj [("skills", VArr [VStr "Go"]); ("experience", VNum 3 "3")] in
  let c := mkElement ["d-none"] [Markup "<p>old</p>"] in
  fst (populateJdResults a (Some c)) =
    Throw (TypeError "items.forEach is not a function") /\
  snd (populateJdResults a (Some c)) = Some (mkElement ["d-none"] []).
Proof.
  cbv zeta. split; [reflexivity|].
  apply (failed_render_empties_container
           (VObj [("skills", VArr [VStr "Go"]); ("experience", VNum 3 "3")])
           (mkElement ["d-none"] [Markup "<p>old</p>"])
           (TypeError "items.forEach is not a function")).
  reflexivity.
Defined.

Lemma rendered_container_is_revealed_witness :
  let a := VObj [("skills", VArr [VStr "Go"])] in
  let c := mkElement ["card"; "d-none"] [] in
  fst (populateJdResults a (Some c)) = Ok tt /\
  exists c',
    snd (populateJdResults a (Some c)) = Some c'
    /\ has_class "fade-in" (classList c') = true
    /\ has_class "d-none" (classList c') = false
    /\ (forall x, x <> "fade-in" -> x <> "d-none" ->
          has_class x (classList c') = has_class x (classList c)).
Proof.
  cbv zeta. split; [reflexivity|].
  apply (rendered_container_is_revealed (VObj [("skills", VArr [VStr "Go"])])
           (mkElement ["card"; "d-none"] [])).
  reflexivity.
Defined.

Lemma render_reads_four_fields_witness :
  populateJdResults
    (VObj [("skills", VArr [VStr "Go"]); ("experience", VArr [VStr "5 years"])])
    (Some (mkElement [] [])) =
  populateJdResults
    (VObj [("title", VStr "Engineer"); ("experience", VArr [VStr "5 years"]);
           ("skills", VArr [VStr "Go"])])
    (Some (mkElement [] [])).
Proof.
  apply (render_reads_four_fields
           (VObj [("skills", VArr [VStr "Go"]); ("experience", VArr [VStr "5 years"])])
           (VObj [("title", VStr "Engineer"); ("experience", VArr [VStr "5 years"]);
                  ("skills", VArr [VStr "Go"])])).
  intros k t H. simpl in H.
  destruct H as [H|[H|[H|[H|[]]]]]; injection H as <- <-; reflexivity.
Defined.

Lemma one_request_per_submission_witness :
  get_form CV example_page = Some example_form /\
  fetched (submit CV (mkEnv (Response 503 None) lenient_parser) example_page) =
  [("POST", "/api/resume", [("file", "document.pdf")])].
Proof.
  split; [reflexivity|].
  apply (one_request_per_submission CV (mkEnv (Response 503 None) lenient_parser)
           example_page example_form).
  reflexivity.
Defined.

Lemma other_form_untouched_witness :
  CV <> JD /\
  get_form CV (submit JD (mkEnv NetworkFailure lenient_parser) example_page) =
  get_form CV example_page.
Proof.
  split; [discriminate|].
  apply (other_form_untouched JD CV (mkEnv NetworkFailure lenient_parser)
           example_page).
  discriminate.
Defined.

Lemma success_notification_comes_first_witness :
  let env := mkEnv (Response 200 (Some VNull)) lenient_parser in
  get_form CV example_page = Some example_form /\
  alerts_container example_page = Some (mkElement [] []) /\
  notifications (submit CV env example_page) =
  [alert_node "success" "Resume uploaded and analyzed successfully!";
   alert_node "danger" "Failed to upload resume. Please try again."].
Proof.
  cbv zeta. split; [reflexivity|]. split; [reflexivity|].
  rewrite (success_notification_comes_first CV
             (mkEnv (Response 200 (Some VNull)) lenient_parser)
             example_page example_form 200 VNull (mkElement [] [])
             eq_refl eq_refl eq_refl eq_refl).
  reflexivity.
Defined.

Lemma results_rendered_from_analysis_witness :
  let data := VObj [("analysis", VObj [("skills", VArr [VStr "Go"])])] in
  let env := mkEnv (Response 200 (Some data)) lenient_parser in
  get_form JD example_page = Some example_form /\
  option_map classList (jd_results (submit JD env example_page)) = Some ["fade-in"].
Proof.
  cbv zeta. split; [reflexivity|].
  rewrite (results_rendered_from_analysis
             (mkEnv (Response 200
                       (Some (VObj [("analysis", VObj [("skills", VArr [VStr "Go"])])])))
                    lenient_parser)
             example_page example_form 200
             (VObj [("analysis", VObj [("skills", VArr [VStr "Go"])])])
             eq_refl eq_refl eq_refl).
  reflexivity.
Defined.

Lemma one_timer_per_notification_witness :
  get_form JD example_page = Some example_form /\
  timers (submit JD (mkEnv (Response 200 (Some VNull)) lenient_parser) example_page) =
  [5000%Z; 5000%Z].
Proof.
  split; [reflexivity|].
  rewrite (one_timer_per_notification JD
             (mkEnv (Response 200 (Some VNull)) lenient_parser)
             example_page example_form eq_refl).
  reflexivity.
Defined.

Lemma display_follows_selection_witness :
  bound example_upload = true /\
  display_in_step example_upload /\
  display_in_step
    (fst (FileUpload.run example_upload
            [FileUpload.DragOver;
             FileUpload.Drop [FileUpload.mkFile "cv.pdf"];
             FileUpload.Click; FileUpload.Select []])).
Proof.
  assert (S : display_in_step example_upload) by (split; reflexivity).
  split; [reflexivity|]. split; [exact S|].
  apply (display_follows_selection example_upload); [reflexivity | exact S].
Defined.


Lemma empty_drop_keeps_selection_witness :
  bound example_upload = true /\
  FileUpload.input (fst (FileUpload.handle example_upload (FileUpload.Drop []))) =
  FileUpload.input example_upload.
Proof.
  split; [reflexivity|].
  exact (proj1 (empty_drop_keeps_selection example_upload eq_refl)).
Defined.

Lemma highlight_follows_drag_witness :
  bound example_upload = true /\
  active (fst (FileUpload.run example_upload
                 [FileUpload.DragOver; FileUpload.Click; FileUpload.DragLeave;
                  FileUpload.DragOver])) = true.
Proof.
  split; [reflexivity|].
  rewrite (highlight_follows_drag example_upload
             [FileUpload.DragOver; FileUpload.Click; FileUpload.DragLeave;
              FileUpload.DragOver] eq_refl).
  reflexivity.
Defined.

Lemma incomplete_block_is_inert_witness :
  bound incomplete_upload = false /\
  snd (FileUpload.run incomplete_upload
         [FileUpload.Click; FileUpload.Select [FileUpload.mkFile "cv.pdf"]]) = [].
Proof.
  split; [reflexivity|].
  exact (proj1 (incomplete_block_is_inert incomplete_upload
                  [FileUpload.Click; FileUpload.Select [FileUpload.mkFile "cv.pdf"]]
                  eq_refl)).
Defined.

Lemma dropped_files_replace_selection_witness :
  bound example_upload = true /\
  exists d',
    FileUpload.fileNameDisplay
      (fst (FileUpload.handle example_upload
              (FileUpload.Drop [FileUpload.mkFile "jd.docx"; FileUpload.mkFile "b.txt"])))
    = Some d'
    /\ children d' = [TextNode "jd.docx"].
Proof.
  split; [reflexivity|].
  destruct (dropped_files_replace_selection example_upload
              (FileUpload.mkFile "jd.docx") [FileUpload.mkFile "b.txt"]
              (mkElement ["file-name"; "d-none"] []) eq_refl eq_refl)
    as (d' & E & _ & (_ & C) & _).
  exists d'. split; [exact E | exact C].
Defined.

End FurtherInstances.
